(** * PA-CHECK-MM: the workflow front end and the engine contract it talks to

    The development has two halves.  The first embeds the TypeScript sources
    (the [apiService] wire types, the definition form, the state diagram, the
    instance pages).  The second, module [Core], is the rule and workflow engine
    of the specification; its Python sources are not part of the front end, so
    every definition there is modelled from the specification's wording and says
    so.  Theorems come after all definitions. *)

From stdpp Require Import base list strings option pretty gmap.
From Stdlib Require Import ZArith Ascii.

Set Warnings "-register-all".
Set Default Proof Using "Type".
Open Scope string_scope.

(** ** JavaScript values that cross the wire *)

(** A JSON document, as [axios] sends and receives it.  Objects keep their
    members in insertion order, as JavaScript objects do.  Number payloads are
    never inspected by the code below, integers stand for them. *)
Inductive json :=
| JNull
| JBool (b : bool)
| JNum (n : Z)
| JStr (s : string)
| JArr (items : list json)
| JObj (members : list (string * json)).

(** [obj[key]]: the first member called [key], [None] for [undefined]. *)
Fixpoint member (key : string) (members : list (string * json)) : option json :=
  match members with
  | [] => None
  | (k, v) :: rest => if String.eqb k key then Some v else member key rest
  end.


Definition field (key : string) (doc : json) : option json :=
  match doc with
  | JObj members => member key members
  | _ => None
  end.

Definition as_string (v : json) : option string :=
  match v with JStr s => Some s | _ => None end.

Definition as_bool (v : json) : option bool :=
  match v with JBool b => Some b | _ => None end.

Definition as_array (v : json) : option (list json) :=
  match v with JArr l => Some l | _ => None end.

Definition as_object (v : json) : option (list (string * json)) :=
  match v with JObj m => Some m | _ => None end.

Definition str_field (key : string) (doc : json) : option string :=
  field key doc ≫= as_string.

Definition bool_field (key : string) (doc : json) : option bool :=
  field key doc ≫= as_bool.

Definition obj_field (key : string) (doc : json) : option (list (string * json)) :=
  field key doc ≫= as_object.

(** Truthiness of an optional string: [undefined], [null] and [''] are falsy. *)
Definition truthy (s : option string) : bool :=
  match s with
  | Some v => negb (String.eqb v "")
  | None => false
  end.

(** [a || b] on an optional string with a string fallback. *)
Definition or_else (s : option string) (fallback : string) : string :=
  match s with
  | Some v => if String.eqb v "" then fallback else v
  | None => fallback
  end.

(** Truthiness of an optional boolean flag ([is_initial?: boolean]). *)
Definition flag (b : option bool) : bool := default false b.

(** A type with a structured document form. *)
Class Document (T : Type) := {
  to_doc : T → json;
  of_doc : json → option T;
}.

Definition docs_of {T} `{Document T} (l : list T) : json := JArr (map to_doc l).

Definition of_docs {T} `{Document T} (v : json) : option (list T) :=
  l ← as_array v; mapM of_doc l.

Definition docs_field {T} `{Document T} (key : string) (doc : json) : option (list T) :=
  field key doc ≫= of_docs.

(** ** app/api/apiService.ts *)

Module Api.

Module WorkflowState.
Record t := mk {
      id : string;
      name : string;
      description : string;
      is_initial : bool;
      is_final : bool;
    }.
End WorkflowState.

Module WorkflowTransition.
Record t := mk {
      id : string;
      name : string;
      description : string;
      from_state_id : string;
      to_state_id : string;
      conditions : option (list string);
    }.
End WorkflowTransition.

Module WorkflowDefinition.
Record t := mk {
      id : string;
      name : string;
      description : string;
      version : string;
      states : list WorkflowState.t;
      transitions : list WorkflowTransition.t;
      created_at : string;
      updated_at : string;
    }.
End WorkflowDefinition.

  (** [status: 'active' | 'completed' | 'terminated'] *)
Module Status.
Inductive t := active | completed | terminated.


End Status.

Module WorkflowInstance.
Record t := mk {
      id : string;
      workflow_definition_id : string;
      current_state_id : string;
      data : list (string * json);
      status : Status.t;
      created_at : string;
      updated_at : string;
    }.
End WorkflowInstance.

Module WorkflowHistoryEntry.
Record t := mk {
      id : string;
      workflow_instance_id : string;
      from_state_id : option string;
      to_state_id : string;
      transition_id : option string;
      timestamp : string;
      data : list (string * json);
    }.
End WorkflowHistoryEntry.

Module CreateWorkflowInstanceRequest.
Record t := mk {
      workflow_definition_id : string;
      data : option json;
    }.
End CreateWorkflowInstanceRequest.

Module TransitionWorkflowInstanceRequest.
Record t := mk {
      transition_id : string;
      data : option json;
    }.
End TransitionWorkflowInstanceRequest.

(** The document of a state: one member per declared field, under the
    declared name. *)

#[global] Instance state_document : Document WorkflowState.t := {|
    to_doc s := JObj [
      ("id", JStr (WorkflowState.id s));
      ("name", JStr (WorkflowState.name s));
      ("description", JStr (WorkflowState.description s));
      ("is_initial", JBool (WorkflowState.is_initial s));
      ("is_final", JBool (WorkflowState.is_final s)) ];
    of_doc d :=
      i ← str_field "id" d;
      n ← str_field "name" d;
      ds ← str_field "description" d;
      ini ← bool_field "is_initial" d;
      fin ← bool_field "is_final" d;
      Some (WorkflowState.mk i n ds ini fin)
  |}.

End Api.

(** ** app/workflow-instances/page.tsx *)

Module InstancesPage.


Definition getDefinitionName (definitions : option (list Api.WorkflowDefinition.t))
      (definitionId : string) : string :=
    let definition :=
      ds ← definitions;
      snd <$> list_find (λ d, Api.WorkflowDefinition.id d = definitionId) ds in
    or_else (Api.WorkflowDefinition.name <$> definition) "Unknown Definition".

(** State name by definition id and state id. *)
Definition getStateName (definitions : option (list Api.WorkflowDefinition.t))
    (definitionId stateId : string) : string :=
  let definition :=
    ds ← definitions;
    snd <$> list_find (λ d, Api.WorkflowDefinition.id d = definitionId) ds in
  let state :=
    d ← definition;
    snd <$> list_find (λ s, Api.WorkflowState.id s = stateId)
              (Api.WorkflowDefinition.states d) in
  or_else (Api.WorkflowState.name <$> state) "Unknown State".

End InstancesPage.

(** ** app/workflow-instances/[id]/page.tsx and app/workflow-instances/new/page.tsx *)

(** What a submit of a validated form leads to: the resolver's errors (the
    handler is not called), or the handler's run with the request it made, if
    any, and the snackbar it raised. *)
Inductive Submission (Req : Type) :=
| Invalid (errors : list (string * string))
| Handled (request : option Req) (snackbar : string).
Arguments Invalid {Req} errors.
Arguments Handled {Req} request snackbar.

Definition request_of {Req} (s : Submission Req) : option Req :=
  match s with
  | Invalid _ => None
  | Handled r _ => r
  end.

Definition errors_of {Req} (s : Submission Req) : list (string * string) :=
  match s with
  | Invalid errs => errs
  | Handled _ _ => []
  end.

(** [yup.string().required(message)]: the empty string is refused. *)
Definition required (path message value : string) : list (string * string) :=
  if String.eqb value "" then [(path, message)] else [].

Section JsonForms.

  (** [JSON.parse]; [None] stands for the [SyntaxError] it throws. *)
Variable JSON_parse : string → option json.

  (** The ['is-valid-json'] test both schemas attach to [data]. *)
Definition is_valid_json (value : string) : bool :=
    if String.eqb value "" then true
    else match JSON_parse value with
         | Some _ => true
         | None => false
         end.

Definition json_test (path value : string) : list (string * string) :=
    if is_valid_json value then [] else [(path, "Invalid JSON format")].

  (** [data.data ? JSON.parse(data.data) : {}] *)
Definition parsedData (data : string) : option json :=
    if String.eqb data "" then Some (JObj []) else JSON_parse data.

End JsonForms.

Module InstanceDetailPage.

Module TransitionFormData.
Record t := mk {
        transition_id : string;
        data : string;
      }.
End TransitionFormData.

Section Form.

Variable JSON_parse : string → option json.

Definition transitionSchema (v : TransitionFormData.t) : list (string * string) :=
      required "transition_id" "Transition is required" (TransitionFormData.transition_id v)
      ++ json_test JSON_parse "data" (TransitionFormData.data v).

    (** [mutateAsync] resolves ([true]) or rejects ([false]). *)
Definition handleTransitionSubmit
        (mutateAsync : Api.TransitionWorkflowInstanceRequest.t → bool)
        (data : TransitionFormData.t) : Submission Api.TransitionWorkflowInstanceRequest.t :=
      match parsedData JSON_parse (TransitionFormData.data data) with
      | None => Handled None "Failed to transition workflow"
      | Some parsed =>
          let request := Api.TransitionWorkflowInstanceRequest.mk
                           (TransitionFormData.transition_id data) (Some parsed) in
          if mutateAsync request
          then Handled (Some request) "Workflow transitioned successfully"
          else Handled (Some request) "Failed to transition workflow"
      end.

    (** [handleSubmit(handleTransitionSubmit)] of react-hook-form with the
        yup resolver: the handler runs only when the schema reports nothing. *)
Definition onSubmit (mutateAsync : Api.TransitionWorkflowInstanceRequest.t → bool)
        (v : TransitionFormData.t) : Submission Api.TransitionWorkflowInstanceRequest.t :=
      match transitionSchema v with
      | [] => handleTransitionSubmit mutateAsync v
      | errors => Invalid errors
      end.

End Form.

Definition getStateName (definition : option Api.WorkflowDefinition.t)
        (stateId : string) : string :=
      let state :=
        d ← definition;
        snd <$> list_find (λ s, Api.WorkflowState.id s = stateId)
                  (Api.WorkflowDefinition.states d) in
      or_else (Api.WorkflowState.name <$> state) "Unknown State".

Definition getTransitionName (definition : option Api.WorkflowDefinition.t)
        (transitionId : string) : string :=
      let transition :=
        d ← definition;
        snd <$> list_find (λ t, Api.WorkflowTransition.id t = transitionId)
                  (Api.WorkflowDefinition.transitions d) in
      or_else (Api.WorkflowTransition.name <$> transition) "System Transition".

    (** Available transitions from the current state. *)
Definition getAvailableTransitions (definition : option Api.WorkflowDefinition.t)
        (instance : option Api.WorkflowInstance.t) : list Api.WorkflowTransition.t :=
      match definition, instance with
      | Some definition, Some instance =>
          filter (λ transition,
                    Api.WorkflowTransition.from_state_id transition
                    = Api.WorkflowInstance.current_state_id instance)
                 (Api.WorkflowDefinition.transitions definition)
      | _, _ => []
      end.

Definition canTransition (definition : option Api.WorkflowDefinition.t)
        (instance : option Api.WorkflowInstance.t) : bool :=
      match instance with
      | None => false
      | Some i =>
          match Api.WorkflowInstance.status i with
          | Api.Status.active =>
              bool_decide (0 < length (getAvailableTransitions definition instance))
          | _ => false
          end
      end.

    (** The [MenuItem]s of the transition select: value and text. *)
Definition transitionMenuItems (definition : Api.WorkflowDefinition.t)
        (instance : Api.WorkflowInstance.t) : list (string * string) :=
      map (λ transition,
             let toState :=
               snd <$> list_find (λ s, Api.WorkflowState.id s
                                        = Api.WorkflowTransition.to_state_id transition)
                         (Api.WorkflowDefinition.states definition) in
             (Api.WorkflowTransition.id transition,
              Api.WorkflowTransition.name transition ++ " (to "
                ++ default "" (Api.WorkflowState.name <$> toState) ++ ")"))
          (getAvailableTransitions (Some definition) (Some instance)).


    (** The From State and Transition cells of one history row. *)
Definition historyRow (definition : option Api.WorkflowDefinition.t)
        (entry : Api.WorkflowHistoryEntry.t) : string * string * string :=
      (match Api.WorkflowHistoryEntry.from_state_id entry with
       | Some s => if truthy (Some s) then getStateName definition s else "Initial"
       | None => "Initial"
       end,
       getStateName definition (Api.WorkflowHistoryEntry.to_state_id entry),
       match Api.WorkflowHistoryEntry.transition_id entry with
       | Some t => if truthy (Some t) then getTransitionName definition t
                   else "Initialization"
       | None => "Initialization"
       end).

End InstanceDetailPage.

Module NewInstancePage.

Module FormData.
Record t := mk {
        workflow_definition_id : string;
        data : string;
      }.
End FormData.

Section Form.

Variable JSON_parse : string → option json.

Definition schema (v : FormData.t) : list (string * string) :=
      required "workflow_definition_id" "Workflow definition is required"
        (FormData.workflow_definition_id v)
      ++ json_test JSON_parse "data" (FormData.data v).

Definition handleFormSubmit
        (mutateAsync : Api.CreateWorkflowInstanceRequest.t → bool)
        (data : FormData.t) : Submission Api.CreateWorkflowInstanceRequest.t :=
      match parsedData JSON_parse (FormData.data data) with
      | None => Handled None "Failed to create workflow instance"
      | Some parsed =>
          let request := Api.CreateWorkflowInstanceRequest.mk
                           (FormData.workflow_definition_id data) (Some parsed) in
          if mutateAsync request
          then Handled (Some request) "Workflow instance created successfully"
          else Handled (Some request) "Failed to create workflow instance"
      end.

Definition onSubmit (mutateAsync : Api.CreateWorkflowInstanceRequest.t → bool)
        (v : FormData.t) : Submission Api.CreateWorkflowInstanceRequest.t :=
      match schema v with
      | [] => handleFormSubmit mutateAsync v
      | errors => Invalid errors
      end.

End Form.

End NewInstancePage.

(** ** The workflow definition detail page *)

Module DefinitionDetailPage.

(** The Type cell of the States table: chip label and colour. *)
Definition stateTypeChip (state : Api.WorkflowState.t) : string * string :=
  if Api.WorkflowState.is_initial state && Api.WorkflowState.is_final state
  then ("Initial & Final", "warning")
  else if Api.WorkflowState.is_initial state then ("Initial", "success")
  else if Api.WorkflowState.is_final state then ("Final", "error")
  else ("Normal", "default").

End DefinitionDetailPage.

(** ** app/workflow-definitions/components/StateDiagram.tsx *)

Module StateDiagram.

Module State.
Record t := mk {
  id : option string;
  name : string;
  is_initial : option bool;
  is_final : option bool;
}.
End State.

Module Transition.
Record t := mk {
  id : option string;
  name : string;
  from_state_id : option string;
  to_state_id : option string;
}.
End Transition.

(** A node of the flow.  [turn] is the pair (index, states.length): the node
    sits on the circle of radius 200 around (300, 200) at that fraction of a
    full turn; the trigonometry itself is left to the renderer. *)
Module Node.
Record t := mk {
  id : string;
  label : string;
  turn : nat * nat;
  borderColor : option string;
  className : string;
}.
End Node.

Module Edge.
Record t := mk {
  id : string;
  source : string;
  target : string;
  label : string;
}.
End Edge.

(** [a === b] on optional strings. *)
Definition strict_eq (a b : option string) : bool :=
  match a, b with
  | Some x, Some y => String.eqb x y
  | None, None => true
  | _, _ => false
  end.

Definition createNode (total index : nat) (state : State.t) : Node.t :=
  let stateId := or_else (State.id state) (pretty index) in
  let style0 : option string := None in
  let className0 := "" in
  let '(style1, className1) :=
    if flag (State.is_initial state)
    then (Some "#4CAF50", "initial-state")
    else (style0, className0) in
  let '(style2, className2) :=
    if flag (State.is_final state)
    then (Some "#F44336",
          if flag (State.is_initial state) then "initial-final-state" else "final-state")
    else (style1, className1) in
  {| Node.id := stateId;
     Node.label := State.name state;
     Node.turn := (index, total);
     Node.borderColor := style2;
     Node.className := className2 |}.

Definition createNodes (states : list State.t) : list Node.t :=
  imap (createNode (length states)) states.

(** The body of the [map] callback of [createEdges]; [None] is its [null]. *)
Definition createEdge (index : nat) (transition : Transition.t) : option Edge.t :=
  let fromId := Transition.from_state_id transition in
  let toId := Transition.to_state_id transition in
  if strict_eq fromId toId || negb (truthy fromId) || negb (truthy toId)
  then None
  else Some {| Edge.id := or_else (Transition.id transition) ("e" ++ pretty index);
               Edge.source := default "" fromId;
               Edge.target := default "" toId;
               Edge.label := Transition.name transition |}.

(** [transitions.map(...).filter(Boolean)] *)
Definition createEdges (transitions : list Transition.t) : list Edge.t :=
  omap id (imap createEdge transitions).

(** A transition that is drawn: both endpoints non-empty and different. *)
Definition drawable (transition : Transition.t) : Prop :=
  ∃ f t, Transition.from_state_id transition = Some f
         ∧ Transition.to_state_id transition = Some t
         ∧ f ≠ "" ∧ t ≠ "" ∧ f ≠ t.

(** The same, as a test on the two endpoints. *)
Definition drawableb (transition : Transition.t) : bool :=
  match Transition.from_state_id transition, Transition.to_state_id transition with
  | Some f, Some t => negb (String.eqb f "") && negb (String.eqb t "") && negb (String.eqb f t)
  | _, _ => false
  end.

(** The edge drawn for a drawable transition at position [index]. *)
Definition edge_of (index : nat) (transition : Transition.t) : Edge.t :=
  {| Edge.id := or_else (Transition.id transition) ("e" ++ pretty index);
     Edge.source := default "" (Transition.from_state_id transition);
     Edge.target := default "" (Transition.to_state_id transition);
     Edge.label := Transition.name transition |}.

End StateDiagram.

(** ** The workflow definition form (components/WorkflowDefinitionForm.tsx) *)

Module WorkflowDefinitionForm.

Module StateData.
Record t := mk {
  id : option string;
  name : string;
  description : string;
  is_initial : bool;
  is_final : bool;
}.
End StateData.

Module TransitionData.
Record t := mk {
  id : option string;
  name : string;
  description : string;
  from_state_id : string;
  to_state_id : string;
}.
End TransitionData.

Module WorkflowDefinitionFormData.
Record t := mk {
  name : string;
  description : string;
  version : string;
  states : list StateData.t;
  transitions : list TransitionData.t;
}.
End WorkflowDefinitionFormData.

(** Error paths of the array members, as yup writes them. *)
Definition item_path (array : string) (index : nat) (member : string) : string :=
  array ++ "[" ++ pretty index ++ "]." ++ member.

Definition state_schema (index : nat) (s : StateData.t) : list (string * string) :=
  required (item_path "states" index "name") "State name is required" (StateData.name s).

Definition transition_schema (index : nat) (t : TransitionData.t)
    : list (string * string) :=
  required (item_path "transitions" index "name") "Transition name is required"
    (TransitionData.name t)
  ++ required (item_path "transitions" index "from_state_id") "From state is required"
       (TransitionData.from_state_id t)
  ++ required (item_path "transitions" index "to_state_id") "To state is required"
       (TransitionData.to_state_id t).

(** [array().min(1, message)] *)
Definition min_1 {A} (path message : string) (l : list A) : list (string * string) :=
  match l with
  | [] => [(path, message)]
  | _ :: _ => []
  end.

(** The form validation schema: the errors it reports, none when the form is
    accepted. *)
Definition schema (v : WorkflowDefinitionFormData.t) : list (string * string) :=
  required "name" "Name is required" (WorkflowDefinitionFormData.name v)
  ++ required "version" "Version is required" (WorkflowDefinitionFormData.version v)
  ++ concat (imap state_schema (WorkflowDefinitionFormData.states v))
  ++ min_1 "states" "At least one state is required" (WorkflowDefinitionFormData.states v)
  ++ concat (imap transition_schema (WorkflowDefinitionFormData.transitions v)).

(** What the schema asks of a state and of a transition. *)
Definition state_ok (s : StateData.t) : Prop := StateData.name s ≠ "".

Definition transition_ok (t : TransitionData.t) : Prop :=
  TransitionData.name t ≠ ""
  ∧ TransitionData.from_state_id t ≠ ""
  ∧ TransitionData.to_state_id t ≠ "".

(** [handleSubmit(handleFormSubmit)]: the [onSubmit] property receives the
    data only when the schema reports nothing. *)
Definition handleFormSubmit {Req}
    (onSubmit : WorkflowDefinitionFormData.t → Submission Req)
    (v : WorkflowDefinitionFormData.t) : Submission Req :=
  match schema v with
  | [] => onSubmit v
  | errors => Invalid errors
  end.

Definition defaultStates : list StateData.t :=
  [ StateData.mk None "Initial" "Starting state" true false ].

Definition handleAddState (states : list StateData.t) : list StateData.t :=
  states ++ [ StateData.mk None ("State " ++ pretty (length states + 1)) "" false false ].

(** [handleAddTransition]: refused with fewer than two states; the new
    transition goes from the first state to the second. *)
Definition handleAddTransition (states : list StateData.t)
    (transitions : list TransitionData.t) : list TransitionData.t :=
  match states with
  | s0 :: s1 :: _ =>
      transitions
      ++ [ TransitionData.mk None ("Transition " ++ pretty (length transitions + 1)) ""
             (or_else (StateData.id s0) "0") (or_else (StateData.id s1) "1") ]
  | _ => transitions
  end.

Definition set_is_initial (value : bool) (s : StateData.t) : StateData.t :=
  StateData.mk (StateData.id s) (StateData.name s) (StateData.description s)
    value (StateData.is_final s).

(** [onChange] of the Initial State switch of state [index]: the switch takes
    the new value and, when it was turned on, every other state is unset. *)
Definition onInitialChange (index : nat) (checked : bool) (states : list StateData.t)
    : list StateData.t :=
  imap (λ i s,
          if bool_decide (i = index) then set_is_initial checked s
          else if checked then set_is_initial false s
          else s)
       states.

(** [removeState(index)] *)
Definition removeState (index : nat) (states : list StateData.t) : list StateData.t :=
  delete index states.

Definition set_is_final (value : bool) (s : StateData.t) : StateData.t :=
  StateData.mk (StateData.id s) (StateData.name s) (StateData.description s)
    (StateData.is_initial s) value.

Definition set_name (value : string) (s : StateData.t) : StateData.t :=
  StateData.mk (StateData.id s) value (StateData.description s)
    (StateData.is_initial s) (StateData.is_final s).

Definition set_description (value : string) (s : StateData.t) : StateData.t :=
  StateData.mk (StateData.id s) (StateData.name s) value
    (StateData.is_initial s) (StateData.is_final s).

(** [field.onChange] of the Final State switch, of the State Name field and
    of the Description field of state [index]. *)
Definition onFinalChange (index : nat) (checked : bool) (states : list StateData.t)
    : list StateData.t :=
  alter (set_is_final checked) index states.

Definition onNameChange (index : nat) (value : string) (states : list StateData.t)
    : list StateData.t :=
  alter (set_name value) index states.

Definition onDescriptionChange (index : nat) (value : string) (states : list StateData.t)
    : list StateData.t :=
  alter (set_description value) index states.

(** A state the server has not given an id yet. *)
Definition unsaved (s : StateData.t) : Prop := StateData.id s = None.

(** The lists of states the form can hold when it starts from
    [defaultStates] and is changed by its own controls: Add State, and for a
    state of the list its delete button, its two switches and its two text
    fields. *)
Inductive form_states : list StateData.t → Prop :=
| form_default : form_states defaultStates
| form_add states : form_states states → form_states (handleAddState states)
| form_remove index states :
    form_states states → index < length states →
    form_states (removeState index states)
| form_initial index checked states :
    form_states states → index < length states →
    form_states (onInitialChange index checked states)
| form_final index checked states :
    form_states states → index < length states →
    form_states (onFinalChange index checked states)
| form_name index value states :
    form_states states → index < length states →
    form_states (onNameChange index value states)
| form_description index value states :
    form_states states → index < length states →
    form_states (onDescriptionChange index value states).

Definition initial_count (states : list StateData.t) : nat :=
  length (filter (λ s, StateData.is_initial s = true) states).

(** The state ids a transition of the form can name: the id of a state, or
    its index when it has none (the values of the two selects). *)
Definition state_keys (states : list StateData.t) : list string :=
  imap (λ i s, or_else (StateData.id s) (pretty i)) states.

End WorkflowDefinitionForm.

(** ** app/workflow-definitions/new/page.tsx *)

Module NewDefinitionPage.

Import WorkflowDefinitionForm.

(** [stateIdMap]: the decimal text of every state index, mapped to the index. *)
Definition stateIdMap (states : list StateData.t) : gmap string nat :=
  list_to_map (imap (λ index _, (pretty index, index)) states).

(** [stateIdMap.get(id)?.toString() || id] *)
Definition remap (m : gmap string nat) (state_id : string) : string :=
  or_else (pretty <$> m !! state_id) state_id.

Definition updatedTransitions (data : WorkflowDefinitionFormData.t)
    : list TransitionData.t :=
  let m := stateIdMap (WorkflowDefinitionFormData.states data) in
  map (λ transition,
         TransitionData.mk (TransitionData.id transition)
           (TransitionData.name transition) (TransitionData.description transition)
           (remap m (TransitionData.from_state_id transition))
           (remap m (TransitionData.to_state_id transition)))
      (WorkflowDefinitionFormData.transitions data).

(** The body sent to [createWorkflowDefinition]: the form data with the
    transitions replaced. *)
Definition handleSubmit (mutateAsync : WorkflowDefinitionFormData.t → bool)
    (data : WorkflowDefinitionFormData.t) : Submission WorkflowDefinitionFormData.t :=
  let request :=
    WorkflowDefinitionFormData.mk
      (WorkflowDefinitionFormData.name data)
      (WorkflowDefinitionFormData.description data)
      (WorkflowDefinitionFormData.version data)
      (WorkflowDefinitionFormData.states data)
      (updatedTransitions data) in
  if mutateAsync request
  then Handled (Some request) "Workflow definition created successfully"
  else Handled (Some request) "Failed to create workflow definition".

Definition onSubmit (mutateAsync : WorkflowDefinitionFormData.t → bool)
    (v : WorkflowDefinitionFormData.t) : Submission WorkflowDefinitionFormData.t :=
  handleFormSubmit (handleSubmit mutateAsync) v.

End NewDefinitionPage.

(** ** The diagram the detail page draws *)

Module DiagramProps.

(** [<StateDiagram states={definition.states}
    transitions={definition.transitions} />] of the detail page: the
    definition's states and transitions at the diagram's interface types. *)
Definition ofApiState (s : Api.WorkflowState.t) : StateDiagram.State.t :=
  StateDiagram.State.mk (Some (Api.WorkflowState.id s)) (Api.WorkflowState.name s)
    (Some (Api.WorkflowState.is_initial s)) (Some (Api.WorkflowState.is_final s)).

Definition ofApiTransition (t : Api.WorkflowTransition.t) : StateDiagram.Transition.t :=
  StateDiagram.Transition.mk (Some (Api.WorkflowTransition.id t))
    (Api.WorkflowTransition.name t)
    (Some (Api.WorkflowTransition.from_state_id t))
    (Some (Api.WorkflowTransition.to_state_id t)).

Definition detailDiagram (definition : Api.WorkflowDefinition.t)
    : list StateDiagram.Node.t * list StateDiagram.Edge.t :=
  (StateDiagram.createNodes (ofApiState <$> Api.WorkflowDefinition.states definition),
   StateDiagram.createEdges
     (ofApiTransition <$> Api.WorkflowDefinition.transitions definition)).

End DiagramProps.

(** ** app/workflow-definitions/page.tsx *)

Module DefinitionsPage.

Inductive Severity := success | error.

Module Snackbar.
Record t := mk {
  open : bool;
  message : string;
  severity : Severity;
}.
End Snackbar.

(** The three pieces of state of the page. *)
Module PageState.
Record t := mk {
  deleteDialogOpen : bool;
  definitionToDelete : option string;
  snackbar : Snackbar.t;
}.
End PageState.

Definition initialState : PageState.t :=
  PageState.mk false None (Snackbar.mk false "" success).

(** What a handler did besides changing the state: the ids it asked the API
    to delete, and whether it refetched the list. *)
Module Effects.
Record t := mk {
  deleted : list string;
  refetched : bool;
}.
End Effects.

Definition handleEdit (id : string) : string :=
  "/workflow-definitions/" ++ id ++ "/edit".

Definition handleView (id : string) : string :=
  "/workflow-definitions/" ++ id.

Definition handleStartWorkflow (id : string) : string :=
  "/workflow-instances/new?definitionId=" ++ id.

Definition handleDeleteClick (id : string) (st : PageState.t) : PageState.t :=
  PageState.mk true (Some id) (PageState.snackbar st).

(** [mutateAsync] resolves ([true]) or rejects ([false]). *)
Definition handleDeleteConfirm (mutateAsync : string → bool) (st : PageState.t)
    : PageState.t * Effects.t :=
  let '(snackbar, effects) :=
    match PageState.definitionToDelete st with
    | Some id =>
        if truthy (Some id)
        then if mutateAsync id
             then (Snackbar.mk true "Workflow definition deleted successfully" success,
                   Effects.mk [id] true)
             else (Snackbar.mk true "Failed to delete workflow definition" error,
                   Effects.mk [id] false)
        else (PageState.snackbar st, Effects.mk [] false)
    | None => (PageState.snackbar st, Effects.mk [] false)
    end in
  (PageState.mk false None snackbar, effects).

Definition handleDeleteCancel (st : PageState.t) : PageState.t :=
  PageState.mk false None (PageState.snackbar st).

Definition handleSnackbarClose (st : PageState.t) : PageState.t :=
  PageState.mk (PageState.deleteDialogOpen st) (PageState.definitionToDelete st)
    (Snackbar.mk false (Snackbar.message (PageState.snackbar st))
       (Snackbar.severity (PageState.snackbar st))).

End DefinitionsPage.

(** ** The rule and workflow engine (specification sections 3, 4, 7 and 9)

    The engine's sources are not among the front-end files.  Every definition
    of this module is modelled from the specification. *)

Module Core.

(** Modelled from the spec: the error taxonomy of section 7; the engine that
    raises these errors is missing from the sources. *)
Inductive EngineError :=
| DuplicateRuleId
| UnknownRule
| EvaluationError
| InvalidDefinition
| UnknownDefinition
| InvalidTransition
| MaxHopsExceeded.

(** Modelled from the spec: an operation returns its result or fails with an
    engine error, synchronously (section 7); the engine is missing. *)
Inductive Result (A : Type) :=
| Ok (a : A)
| Err (e : EngineError).
Arguments Ok {A} a.
Arguments Err {A} e.

(** Modelled from the spec: the context, a mapping of string to arbitrary
    structured value (section 3, WorkflowInstance); the instance class is
    missing. *)
Definition Context := list (string * json).

(** Modelled from the spec: equality of two structured values, used for
    "is present in" of the ListOp semantics (section 4.1); the list condition
    is missing. *)
Fixpoint json_eqb (a b : json) : bool :=
  match a, b with
  | JNull, JNull => true
  | JBool x, JBool y => Bool.eqb x y
  | JNum x, JNum y => Z.eqb x y
  | JStr x, JStr y => String.eqb x y
  | JArr xs, JArr ys =>
      (fix all2 (xs ys : list json) : bool :=
         match xs, ys with
         | [], [] => true
         | x :: xs', y :: ys' => json_eqb x y && all2 xs' ys'
         | _, _ => false
         end) xs ys
  | JObj xs, JObj ys =>
      (fix all2 (xs ys : list (string * json)) : bool :=
         match xs, ys with
         | [], [] => true
         | (k, x) :: xs', (l, y) :: ys' => String.eqb k l && json_eqb x y && all2 xs' ys'
         | _, _ => false
         end) xs ys
  | _, _ => false
  end.

(** Modelled from the spec: the dot-separated segments of a field path
    (section 3, Condition); the list condition is missing. *)
Fixpoint segments (path : string) : list string :=
  match path with
  | EmptyString => [""]
  | String c rest =>
      if Ascii.eqb c "."%char then "" :: segments rest
      else match segments rest with
           | seg :: more => String c seg :: more
           | [] => [String c ""]
           end
  end.

(** Modelled from the spec: following the segments through nested mappings;
    [None] is a missing path (section 3); the list condition is missing. *)
Fixpoint walk (segs : list string) (v : json) : option json :=
  match segs with
  | [] => Some v
  | k :: rest =>
      match v with
      | JObj members => member k members ≫= walk rest
      | _ => None
      end
  end.

(** Modelled from the spec: the value a field path addresses in a context
    (section 3); the list condition is missing. *)
Definition resolve (ctx : Context) (field_path : string) : option json :=
  walk (segments field_path) (JObj ctx).

(** Modelled from the spec: the operations of a ListOp condition (section 3);
    the list condition is missing. *)
Inductive ListOperation :=
| contains_all
| contains_any
| equals
| is_subset
| is_superset.

(** Modelled from the spec: "is present in" a list value (section 4.1); the
    list condition is missing. *)
Definition present (x : json) (l : list json) : bool :=
  existsb (json_eqb x) l.

(** Modelled from the spec: the element set of the first list is included in
    that of the second (section 4.1); the list condition is missing. *)
Definition included (l1 l2 : list json) : bool :=
  forallb (λ x, present x l2) l1.

(** Modelled from the spec: the ListOp semantics of section 4.1 on the
    field's list value and the operand; the list condition is missing. *)
Definition list_op (operation : ListOperation) (value operand : list json) : bool :=
  match operation with
  | contains_all => forallb (λ x, present x value) operand
  | contains_any => existsb (λ x, present x value) operand
  | equals => included value operand && included operand value
  | is_subset => included value operand
  | is_superset => included operand value
  end.

(** Modelled from the spec: evaluation of [ListOp{field_path, operation,
    operand}] against a context: a missing path evaluates to false, a non-list
    field value fails with EvaluationError, a list value is compared by
    [list_op] (sections 3, 4.1 and 7); the list condition is missing. *)
Definition evaluate_ListOp (field_path : string) (operation : ListOperation)
    (operand : list json) (ctx : Context) : Result bool :=
  match resolve ctx field_path with
  | None => Ok false
  | Some (JArr value) => Ok (list_op operation value operand)
  | Some _ => Err EvaluationError
  end.

(** Modelled from the spec: the kind of a State (section 3); the workflow
    definition classes are missing. *)
Inductive StateKind := kind_start | kind_normal | kind_end.

(** Modelled from the spec: kinds are compared when the start and end States
    are looked up; the workflow definition classes are missing. *)
#[global] Instance StateKind_eq_dec : EqDecision StateKind.
Proof. solve_decision. Defined.

Module State.
(** Modelled from the spec: State of section 3; the missing class. *)
Record t := mk {
  id : string;
  name : string;
  kind : StateKind;
}.
End State.

Module Transition.
(** Modelled from the spec: Transition of section 3; the missing class. *)
Record t := mk {
  id : string;
  source_state_id : string;
  target_state_id : string;
  rule_id : option string;
}.
End Transition.

Module WorkflowDefinition.
(** Modelled from the spec: WorkflowDefinition of section 3; the missing
    class. *)
Record t := mk {
  id : string;
  name : string;
  version : string;
  states : list State.t;
  transitions : list Transition.t;
}.
End WorkflowDefinition.

(** Modelled from the spec: the four statuses of an instance (section 3);
    the missing instance class. *)
Inductive Status := active | completed | terminated | failed.

Module HistoryEntry.
(** Modelled from the spec: HistoryEntry of section 3; the missing class.
    The timestamp is a reading of the caller's clock. *)
Record t := mk {
  from_state_id : option string;
  to_state_id : string;
  transition_id : option string;
  timestamp : nat;
  context_snapshot : Context;
}.
End HistoryEntry.

Module WorkflowInstance.
(** Modelled from the spec: WorkflowInstance of section 3; the missing
    class. *)
Record t := mk {
  id : string;
  definition_id : string;
  current_state_id : string;
  context : Context;
  status : Status;
  history : list HistoryEntry.t;
}.
End WorkflowInstance.

(** Modelled from the spec: the name under which a State kind is written in
    the document form (section 3, State: start, normal, end); the engine's
    serialisation is missing. *)
Definition kind_name (k : StateKind) : string :=
  match k with
  | kind_start => "start"
  | kind_normal => "normal"
  | kind_end => "end"
  end.

(** Modelled from the spec: reading a State kind back from its name
    (section 3, State); the engine's serialisation is missing. *)
Definition kind_of_name (s : string) : option StateKind :=
  if String.eqb s "start" then Some kind_start
  else if String.eqb s "normal" then Some kind_normal
  else if String.eqb s "end" then Some kind_end
  else None.

(** Modelled from the spec: the name under which a status is written in the
    document form (section 3, WorkflowInstance: active, completed, terminated,
    failed); the engine's serialisation is missing. *)
Definition status_name (s : Status) : string :=
  match s with
  | active => "active"
  | completed => "completed"
  | terminated => "terminated"
  | failed => "failed"
  end.

(** Modelled from the spec: reading a status back from its name (section 3,
    WorkflowInstance); the engine's serialisation is missing. *)
Definition status_of_name (s : string) : option Status :=
  if String.eqb s "active" then Some active
  else if String.eqb s "completed" then Some completed
  else if String.eqb s "terminated" then Some terminated
  else if String.eqb s "failed" then Some failed
  else None.

(** Modelled from the spec: an optional reference in the document form, null
    when absent (section 3: [rule_id], [from_state_id], [transition_id]); the
    engine's serialisation is missing. *)
Definition optional_string (o : option string) : json :=
  match o with
  | Some s => JStr s
  | None => JNull
  end.

(** Modelled from the spec: reading an optional reference back (section 3);
    the engine's serialisation is missing. *)
Definition optional_string_field (key : string) (doc : json) : option (option string) :=
  match field key doc with
  | Some JNull => Some None
  | Some (JStr s) => Some (Some s)
  | _ => None
  end.

(** Modelled from the spec: reading a clock reading back from the document
    form (section 3, HistoryEntry: timestamp); the engine's serialisation is
    missing. *)
Definition nat_field (key : string) (doc : json) : option nat :=
  match field key doc with
  | Some (JNum n) => if (0 <=? n)%Z then Some (Z.to_nat n) else None
  | _ => None
  end.

(** Modelled from the spec: the document form of a State, with the field
    names of section 3 (section 9, persisted shape); the engine's
    serialisation is missing. *)
#[global] Instance State_document : Document State.t := {|
  to_doc s := JObj [
    ("id", JStr (State.id s));
    ("name", JStr (State.name s));
    ("kind", JStr (kind_name (State.kind s))) ];
  of_doc d :=
    i ← str_field "id" d;
    n ← str_field "name" d;
    k ← str_field "kind" d ≫= kind_of_name;
    Some (State.mk i n k)
|}.

(** Modelled from the spec: the document form of a Transition, with the field
    names of section 3 (section 9, persisted shape); the engine's
    serialisation is missing. *)
#[global] Instance Transition_document : Document Transition.t := {|
  to_doc t := JObj [
    ("id", JStr (Transition.id t));
    ("source_state_id", JStr (Transition.source_state_id t));
    ("target_state_id", JStr (Transition.target_state_id t));
    ("rule_id", optional_string (Transition.rule_id t)) ];
  of_doc d :=
    i ← str_field "id" d;
    src ← str_field "source_state_id" d;
    tgt ← str_field "target_state_id" d;
    r ← optional_string_field "rule_id" d;
    Some (Transition.mk i src tgt r)
|}.

(** Modelled from the spec: the document form of a WorkflowDefinition, with
    the field names of section 3 (section 9, persisted shape); the engine's
    serialisation is missing. *)
#[global] Instance WorkflowDefinition_document : Document WorkflowDefinition.t := {|
  to_doc w := JObj [
    ("id", JStr (WorkflowDefinition.id w));
    ("name", JStr (WorkflowDefinition.name w));
    ("version", JStr (WorkflowDefinition.version w));
    ("states", docs_of (WorkflowDefinition.states w));
    ("transitions", docs_of (WorkflowDefinition.transitions w)) ];
  of_doc d :=
    i ← str_field "id" d;
    n ← str_field "name" d;
    v ← str_field "version" d;
    sts ← docs_field "states" d;
    trs ← docs_field "transitions" d;
    Some (WorkflowDefinition.mk i n v sts trs)
|}.

(** Modelled from the spec: the document form of a HistoryEntry, with the
    field names of section 3 (section 9, persisted shape); the engine's
    serialisation is missing. *)
#[global] Instance HistoryEntry_document : Document HistoryEntry.t := {|
  to_doc e := JObj [
    ("from_state_id", optional_string (HistoryEntry.from_state_id e));
    ("to_state_id", JStr (HistoryEntry.to_state_id e));
    ("transition_id", optional_string (HistoryEntry.transition_id e));
    ("timestamp", JNum (Z.of_nat (HistoryEntry.timestamp e)));
    ("context_snapshot", JObj (HistoryEntry.context_snapshot e)) ];
  of_doc d :=
    from ← optional_string_field "from_state_id" d;
    to ← str_field "to_state_id" d;
    tr ← optional_string_field "transition_id" d;
    ts ← nat_field "timestamp" d;
    snap ← obj_field "context_snapshot" d;
    Some (HistoryEntry.mk from to tr ts snap)
|}.

(** Modelled from the spec: the document form of a WorkflowInstance, with the
    field names of section 3 (section 9, persisted shape); the engine's
    serialisation is missing. *)
#[global] Instance WorkflowInstance_document : Document WorkflowInstance.t := {|
  to_doc i := JObj [
    ("id", JStr (WorkflowInstance.id i));
    ("definition_id", JStr (WorkflowInstance.definition_id i));
    ("current_state_id", JStr (WorkflowInstance.current_state_id i));
    ("context", JObj (WorkflowInstance.context i));
    ("status", JStr (status_name (WorkflowInstance.status i)));
    ("history", docs_of (WorkflowInstance.history i)) ];
  of_doc d :=
    i ← str_field "id" d;
    w ← str_field "definition_id" d;
    c ← str_field "current_state_id" d;
    ctx ← obj_field "context" d;
    st ← str_field "status" d ≫= status_of_name;
    h ← docs_field "history" d;
    Some (WorkflowInstance.mk i w c ctx st h)
|}.

(** Modelled from the spec: merging a data patch into a context, the patch
    winning on the keys it has (section 4.3, transition_instance); the engine
    is missing. *)
Definition merge (ctx patch : Context) : Context :=
  (patch ++ filter (λ kv, member kv.1 patch = None) ctx)%list.

(** Modelled from the spec: whether a state id names an [end] State of the
    definition (section 4.3 step 5); the engine is missing. *)
Definition is_end (d : WorkflowDefinition.t) (state_id : string) : bool :=
  match list_find (λ s, State.id s = state_id) (WorkflowDefinition.states d) with
  | Some (_, s) => match State.kind s with kind_end => true | _ => false end
  | None => false
  end.

(** Modelled from the spec: the outgoing Transitions of a State, in their
    defined order (section 4.3 step 1); the engine is missing. *)
Definition outgoing (d : WorkflowDefinition.t) (state_id : string) : list Transition.t :=
  filter (λ t, Transition.source_state_id t = state_id) (WorkflowDefinition.transitions d).

(** Modelled from the spec: committing a transition: the current state is
    updated, one HistoryEntry is appended, and the status becomes completed
    when the new State is an end State (section 4.3 steps 3 and 5); the engine
    is missing. *)
Definition commit (d : WorkflowDefinition.t) (now : nat) (ctx : Context)
    (t : Transition.t) (i : WorkflowInstance.t) : WorkflowInstance.t :=
  let target := Transition.target_state_id t in
  WorkflowInstance.mk
    (WorkflowInstance.id i)
    (WorkflowInstance.definition_id i)
    target
    ctx
    (if is_end d target then completed else WorkflowInstance.status i)
    (WorkflowInstance.history i
     ++ [ HistoryEntry.mk (Some (WorkflowInstance.current_state_id i)) target
            (Some (Transition.id t)) now ctx ]).

(** Modelled from the spec: an instance that failed on an unrecoverable
    execution error (section 3, lifecycle); the engine is missing. *)
Definition fail (i : WorkflowInstance.t) : WorkflowInstance.t :=
  WorkflowInstance.mk (WorkflowInstance.id i) (WorkflowInstance.definition_id i)
    (WorkflowInstance.current_state_id i) (WorkflowInstance.context i) failed
    (WorkflowInstance.history i).

(** Modelled from the spec: the State an instance was last committed to, the
    target of its newest history entry; the engine is missing. *)
Definition last_committed (i : WorkflowInstance.t) : option string :=
  HistoryEntry.to_state_id <$> last (WorkflowInstance.history i).

(** Modelled from the spec: a history entry written for a committed
    transition, with its origin State and its Transition (section 3,
    HistoryEntry); the engine is missing. *)
Definition committed_entry (e : HistoryEntry.t) : Prop :=
  is_Some (HistoryEntry.from_state_id e) ∧ is_Some (HistoryEntry.transition_id e).

(** Modelled from the spec: an entry written at instance creation (section 3,
    HistoryEntry); the engine is missing. *)
Definition initial_entry (e : HistoryEntry.t) : Prop :=
  HistoryEntry.from_state_id e = None ∧ HistoryEntry.transition_id e = None.

(** Modelled from the spec: a history that starts with the initial entry and
    continues with one entry per committed transition (section 3,
    HistoryEntry); the engine is missing. *)
Definition history_shape (h : list HistoryEntry.t) : Prop :=
  ∃ e0 rest, h = e0 :: rest ∧ initial_entry e0 ∧ Forall committed_entry rest.

(** Modelled from the spec: the instance is at its last committed State
    (section 5); the engine is missing. *)
Definition at_last_committed (i : WorkflowInstance.t) : Prop :=
  last_committed i = Some (WorkflowInstance.current_state_id i).

Section Engine.

(** Modelled from the spec: [RuleEngine.evaluate(rule_id, context)], the rule
    engine the workflow engine is constructed with (sections 4.1 and 9); the
    rule engine is missing. *)
Variable evaluate : string → Context → Result bool.

(** Modelled from the spec: whether a Transition matches: it does when it has
    no rule, otherwise its rule is evaluated against the context (section 4.3
    step 2); the engine is missing. *)
Definition guard (t : Transition.t) (ctx : Context) : Result bool :=
  match Transition.rule_id t with
  | None => Ok true
  | Some r => evaluate r ctx
  end.

(** Modelled from the spec: the first Transition, in order, that matches
    (section 4.3 steps 2 to 4); the engine is missing. *)
Fixpoint first_match (ts : list Transition.t) (ctx : Context)
    : Result (option Transition.t) :=
  match ts with
  | [] => Ok None
  | t :: rest =>
      match guard t ctx with
      | Ok true => Ok (Some t)
      | Ok false => first_match rest ctx
      | Err e => Err e
      end
  end.

(** Modelled from the spec: [create_instance(definition_id, initial_context)]:
    UnknownDefinition when the definition is not registered, otherwise an
    active instance at the start State with one initial HistoryEntry
    (section 4.3); the engine is missing.  The new instance's id and the clock
    reading are supplied by the caller. *)
Definition create_instance (definitions : gmap string WorkflowDefinition.t)
    (instance_id : string) (now : nat) (definition_id : string)
    (initial_context : Context) : Result WorkflowInstance.t :=
  match definitions !! definition_id with
  | None => Err UnknownDefinition
  | Some d =>
      match list_find (λ s, State.kind s = kind_start) (WorkflowDefinition.states d) with
      | None => Err InvalidDefinition
      | Some (_, s) =>
          Ok (WorkflowInstance.mk instance_id definition_id (State.id s)
                initial_context active
                [ HistoryEntry.mk None (State.id s) None now initial_context ])
      end
  end.

(** Modelled from the spec: the auto-advance loop of [run_instance] with
    [hops] commits left of the caller's budget (sections 4.3 and 5); the
    engine is missing. *)
Fixpoint run_loop (d : WorkflowDefinition.t) (now : nat) (hops : nat)
    (i : WorkflowInstance.t) : WorkflowInstance.t * Result () :=
  match first_match (outgoing d (WorkflowInstance.current_state_id i))
          (WorkflowInstance.context i) with
  | Err e => (fail i, Err e)
  | Ok None => (i, Ok ())
  | Ok (Some t) =>
      match hops with
      | O => (i, Err MaxHopsExceeded)
      | S hops' =>
          let i' := commit d now (WorkflowInstance.context i) t i in
          match WorkflowInstance.status i' with
          | active => run_loop d now hops' i'
          | _ => (i', Ok ())
          end
      end
  end.

(** Modelled from the spec: [run_instance(instance_id, max_hops)] on the
    instance and its owning definition; the instance as the call leaves it,
    and the outcome (sections 4.3 and 5); the engine is missing. *)
Definition run_instance (d : WorkflowDefinition.t) (now : nat)
    (i : WorkflowInstance.t) (max_hops : nat) : WorkflowInstance.t * Result () :=
  match WorkflowInstance.status i with
  | active => run_loop d now max_hops i
  | _ => (i, Ok ())
  end.

(** Modelled from the spec: a Transition out of the instance's current State
    matches, so that the run loop has a further commit to make (section 4.3
    steps 1 and 2); the engine is missing. *)
Definition can_advance (d : WorkflowDefinition.t) (i : WorkflowInstance.t) : Prop :=
  ∃ t, first_match (outgoing d (WorkflowInstance.current_state_id i))
         (WorkflowInstance.context i) = Ok (Some t).

(** Modelled from the spec: one hop of the run loop after which the loop goes
    on: the first matching Transition out of the current State is committed
    and the instance is still active (section 4.3 steps 1 to 5); the engine is
    missing. *)
Definition hop (d : WorkflowDefinition.t) (now : nat)
    (i i' : WorkflowInstance.t) : Prop :=
  ∃ t, first_match (outgoing d (WorkflowInstance.current_state_id i))
         (WorkflowInstance.context i) = Ok (Some t)
       ∧ i' = commit d now (WorkflowInstance.context i) t i
       ∧ WorkflowInstance.status i' = active.

(** Modelled from the spec: [transition_instance(instance_id, transition_id,
    data_patch)]: InvalidTransition when the transition does not originate
    from the current State or its guard is false on the merged context;
    otherwise one commit (section 4.3); the engine is missing. *)
Definition transition_instance (d : WorkflowDefinition.t) (now : nat)
    (i : WorkflowInstance.t) (transition_id : string) (data_patch : Context)
    : Result WorkflowInstance.t :=
  match list_find (λ t, Transition.id t = transition_id)
          (WorkflowDefinition.transitions d) with
  | None => Err InvalidTransition
  | Some (_, t) =>
      if bool_decide (Transition.source_state_id t = WorkflowInstance.current_state_id i)
      then
        let merged := merge (WorkflowInstance.context i) data_patch in
        match guard t merged with
        | Ok true => Ok (commit d now merged t i)
        | Ok false => Err InvalidTransition
        | Err e => Err e
        end
      else Err InvalidTransition
  end.

(** Modelled from the spec: the instances the engine can hold for a
    definition: created by [create_instance], then changed only by
    [transition_instance] and [run_instance] (section 3, lifecycle); the engine
    is missing. *)
Inductive reachable (d : WorkflowDefinition.t) : WorkflowInstance.t → Prop :=
| reachable_create definitions instance_id now definition_id ctx i :
    definitions !! definition_id = Some d →
    create_instance definitions instance_id now definition_id ctx = Ok i →
    reachable d i
| reachable_transition now i transition_id data_patch i' :
    reachable d i →
    transition_instance d now i transition_id data_patch = Ok i' →
    reachable d i'
| reachable_run now i max_hops :
    reachable d i →
    reachable d (run_instance d now i max_hops).1.

End Engine.

(** Modelled from the spec: the scenario of section 8, one State X with an
    unconditional Transition from X to X. *)
Definition cycle : WorkflowDefinition.t :=
  WorkflowDefinition.mk "cycle" "Cycle" "1"
    [ State.mk "X" "X" kind_start ]
    [ Transition.mk "loop" "X" "X" None ].

(** Modelled from the spec: the scenario of section 8 with States A (start),
    B and C (end) and unconditional Transitions from A to B and from B to C. *)
Definition linear : WorkflowDefinition.t :=
  WorkflowDefinition.mk "linear" "Linear" "1"
    [ State.mk "A" "A" kind_start; State.mk "B" "B" kind_normal;
      State.mk "C" "C" kind_end ]
    [ Transition.mk "a-b" "A" "B" None; Transition.mk "b-c" "B" "C" None ].

(** Modelled from the spec: the scenario of section 8 whose only Transition
    is guarded by a Rule on [amount]. *)
Definition guarded : WorkflowDefinition.t :=
  WorkflowDefinition.mk "guarded" "Guarded" "1"
    [ State.mk "A" "A" kind_start; State.mk "B" "B" kind_normal ]
    [ Transition.mk "a-b" "A" "B" (Some "large_amount") ].

(** Modelled from the spec: a rule engine holding the one Rule of that
    scenario, [amount > 1000]; any other rule id is unknown. *)
Definition large_amount_rules (rule_id : string) (ctx : Context) : Result bool :=
  if String.eqb rule_id "large_amount"
  then match resolve ctx "amount" with
       | None => Ok false
       | Some (JNum n) => Ok (1000 <? n)%Z
       | Some _ => Err EvaluationError
       end
  else Err UnknownRule.

End Core.

(** * Theorems *)

Open Scope list_scope.

(** ** Documents *)



#[local] Arguments of_docs : simpl never.
#[local] Arguments docs_of : simpl never.

Lemma state_round_trip (s : Api.WorkflowState.t) : of_doc (to_doc s) = Some s.
Proof. by destruct s. Qed.

(** ** Instance statuses *)




(** ** Document field names and round trip *)







(** ** State kinds *)

(** C5, as stated, fails: a State may be initial and final at once; it is a
    value of the interface that survives the round trip, the detail page has
    a chip for it and the diagram a class. *)
Lemma C5_initial_and_final :
  let s := Api.WorkflowState.mk "s1" "Only" "One-step workflow" true true in
  Api.WorkflowState.is_initial s = true
  ∧ Api.WorkflowState.is_final s = true
  ∧ of_doc (to_doc s) = Some s
  ∧ DefinitionDetailPage.stateTypeChip s = ("Initial & Final", "warning")
  ∧ StateDiagram.Node.className
      (StateDiagram.createNode 1 0
         (StateDiagram.State.mk (Some "s1") "Only" (Some true) (Some true)))
    = "initial-final-state".
Proof. cbn. split_and!; reflexivity. Qed.

(** C5, amended: every State carries two independent flags, [is_initial] and
    [is_final]; the detail page gives it exactly one of the four types
    Initial & Final, Initial, Final and Normal, decided by the two flags, and
    the diagram one of four classes in the same way. *)
Theorem C5_four_state_types (s : Api.WorkflowState.t) :
  let ini := Api.WorkflowState.is_initial s in
  let fin := Api.WorkflowState.is_final s in
  (DefinitionDetailPage.stateTypeChip s).1
  = match ini, fin with
    | true, true => "Initial & Final"
    | true, false => "Initial"
    | false, true => "Final"
    | false, false => "Normal"
    end
  ∧ ∀ total index,
      StateDiagram.Node.className
        (StateDiagram.createNode total index
           (StateDiagram.State.mk (Some (Api.WorkflowState.id s))
              (Api.WorkflowState.name s) (Some ini) (Some fin)))
      = match ini, fin with
        | true, true => "initial-final-state"
        | true, false => "initial-state"
        | false, true => "final-state"
        | false, false => ""
        end.
Proof.
  destruct s as [? ? ? [] []]; cbn; split; try reflexivity; intros; reflexivity.
Qed.

(** ** The definition form *)

Section FormFacts.

Import WorkflowDefinitionForm.

Lemma required_nil (path message value : string) :
  required path message value = [] ↔ value ≠ "".
Proof.
  unfold required. destruct (String.eqb_spec value "") as [->|ne]; split; done.
Qed.

Lemma concat_imap_nil {A B} (f : nat → A → list B) (P : A → Prop) (l : list A) :
  (∀ i x, f i x = [] ↔ P x) → concat (imap f l) = [] ↔ Forall P l.
Proof.
  revert f. induction l as [|x l IH]; intros f Hf; cbn.
  - split; [constructor|done].
  - rewrite app_nil, Hf, (IH (f ∘ S)), Forall_cons; [done|].
    intros i y. apply Hf.
Qed.

Lemma schema_accepts (v : WorkflowDefinitionFormData.t) :
  schema v = [] ↔
    WorkflowDefinitionFormData.name v ≠ ""
    ∧ WorkflowDefinitionFormData.version v ≠ ""
    ∧ WorkflowDefinitionFormData.states v ≠ []
    ∧ Forall state_ok (WorkflowDefinitionFormData.states v)
    ∧ Forall transition_ok (WorkflowDefinitionFormData.transitions v).
Proof.
  unfold schema. rewrite !app_nil, !required_nil.
  rewrite (concat_imap_nil state_schema state_ok); last first.
  { intros i s. apply required_nil. }
  rewrite (concat_imap_nil transition_schema transition_ok); last first.
  { intros i t. unfold transition_schema, transition_ok.
    rewrite !app_nil, !required_nil. done. }
  assert (min_1 "states" "At least one state is required"
            (WorkflowDefinitionFormData.states v) = []
          ↔ WorkflowDefinitionFormData.states v ≠ []) as ->.
  { destruct (WorkflowDefinitionFormData.states v); split; done. }
  tauto.
Qed.

Lemma initial_count_unset (l : list StateData.t) :
  initial_count (map (set_is_initial false) l) = 0.
Proof.
  unfold initial_count. induction l as [|s l IH]; [done|].
  change (map (set_is_initial false) (s :: l))
    with (set_is_initial false s :: map (set_is_initial false) l).
  rewrite filter_cons_False; [done|]. cbn. done.
Qed.

Lemma onInitialChange_0 (s : StateData.t) (l : list StateData.t) :
  onInitialChange 0 true (s :: l) = set_is_initial true s :: map (set_is_initial false) l.
Proof.
  unfold onInitialChange. cbn. f_equal.
  induction l as [|x l IH] using rev_ind; [done|].
  rewrite imap_app, map_app, IH. cbn. done.
Qed.

Lemma onInitialChange_S (n : nat) (s : StateData.t) (l : list StateData.t) :
  onInitialChange (S n) true (s :: l) = set_is_initial false s :: onInitialChange n true l.
Proof.
  unfold onInitialChange. cbn. f_equal.
  apply imap_ext. intros i x _. cbn.
  destruct (decide (i = n)) as [->|ne].
  - rewrite !bool_decide_eq_true_2; done.
  - rewrite !bool_decide_eq_false_2; [done|done|lia].
Qed.

Lemma onInitialChange_one (index : nat) (states : list StateData.t) :
  index < length states → initial_count (onInitialChange index true states) = 1.
Proof.
  revert index. induction states as [|s l IH]; intros index Hlt; cbn in Hlt; [lia|].
  destruct index as [|n].
  - rewrite onInitialChange_0. unfold initial_count.
    rewrite filter_cons_True by done. cbn. f_equal. apply initial_count_unset.
  - rewrite onInitialChange_S. unfold initial_count.
    rewrite filter_cons_False by (cbn; done). apply IH. lia.
Qed.

End FormFacts.

Section SubmitFacts.

Import WorkflowDefinitionForm NewDefinitionPage.

Lemma stateIdMap_lookup (states : list StateData.t) (key : string) (index : nat) :
  stateIdMap states !! key = Some index → key = pretty index.
Proof.
  unfold stateIdMap. intros Hin%elem_of_list_to_map_2.
  apply elem_of_lookup_imap in Hin as (i & s & [= -> ->] & _). done.
Qed.

Lemma remap_id (states : list StateData.t) (state_id : string) :
  remap (stateIdMap states) state_id = state_id.
Proof.
  unfold remap. destruct (stateIdMap states !! state_id) as [index|] eqn:Hm; [|done].
  apply stateIdMap_lookup in Hm as ->. cbn.
  by destruct (String.eqb (pretty index) "").
Qed.

Lemma updatedTransitions_id (data : WorkflowDefinitionFormData.t) :
  updatedTransitions data = WorkflowDefinitionFormData.transitions data.
Proof.
  unfold updatedTransitions.
  induction (WorkflowDefinitionFormData.transitions data) as [|t l IH]; [done|].
  cbn. rewrite IH, !remap_id. by destruct t.
Qed.

Lemma onSubmit_request (mutateAsync : WorkflowDefinitionFormData.t → bool)
    (v : WorkflowDefinitionFormData.t) :
  schema v = [] → request_of (onSubmit mutateAsync v) = Some v.
Proof.
  intros Hok. unfold onSubmit, handleFormSubmit. rewrite Hok.
  unfold handleSubmit. rewrite updatedTransitions_id.
  destruct v. cbn. by destruct (mutateAsync _).
Qed.

(** C4, as stated, fails for the form's validation: a definition whose two
    states share an id, whose transition ends in a state that does not exist
    and that has no initial state is accepted and sent to the API as it is;
    so is one with two initial states.  A definition without an initial state
    and with a dangling transition is also what the form's own buttons give:
    add a state, add a transition, remove the first state. *)
Lemma C4_form_accepts_malformed :
  let states1 := handleAddState defaultStates in
  let edited := WorkflowDefinitionFormData.mk "Approval" "" "1.0.0"
                  (removeState 0 states1) (handleAddTransition states1 []) in
  let a := StateData.mk (Some "s1") "Draft" "" false false in
  let b := StateData.mk (Some "s1") "Approved" "" false true in
  let go := TransitionData.mk None "Approve" "" "s1" "ghost" in
  let v := WorkflowDefinitionFormData.mk "Approval" "" "1.0.0" [a; b] [go] in
  let two := WorkflowDefinitionFormData.mk "Approval" "" "1.0.0"
               [set_is_initial true a; set_is_initial true b] [go] in
  schema v = []
  ∧ ¬ NoDup (StateData.id <$> WorkflowDefinitionFormData.states v)
  ∧ (TransitionData.to_state_id go ∉ state_keys (WorkflowDefinitionFormData.states v))
  ∧ initial_count (WorkflowDefinitionFormData.states v) = 0
  ∧ request_of (onSubmit (λ _, true) v) = Some v
  ∧ schema two = []
  ∧ initial_count (WorkflowDefinitionFormData.states two) = 2
  ∧ request_of (onSubmit (λ _, true) two) = Some two
  ∧ schema edited = []
  ∧ initial_count (WorkflowDefinitionFormData.states edited) = 0
  ∧ (TransitionData.to_state_id <$> WorkflowDefinitionFormData.transitions edited) = ["1"]
  ∧ state_keys (WorkflowDefinitionFormData.states edited) = ["0"]
  ∧ request_of (onSubmit (λ _, true) edited) = Some edited.
Proof.
  cbn zeta. split_and!; try reflexivity.
  - intros H. apply (bool_decide_pack _) in H. vm_compute in H. done.
  - intros H. apply (bool_decide_pack _) in H. vm_compute in H. done.
Qed.

(** C4, amended: the definition form accepts a definition exactly when its
    name and version are not empty, it has at least one state, every state
    has a name and every transition a name, a from-state and a to-state; an
    accepted definition is sent as it is.  State ids, the existence of the
    transitions' endpoints and the number of initial states are not checked;
    turning the Initial switch of a state on leaves exactly one initial
    state. *)
Theorem C4_form_validation (v : WorkflowDefinitionFormData.t)
    (mutateAsync : WorkflowDefinitionFormData.t → bool)
    (index : nat) (states : list StateData.t) :
  (schema v = [] ↔
     WorkflowDefinitionFormData.name v ≠ ""
     ∧ WorkflowDefinitionFormData.version v ≠ ""
     ∧ WorkflowDefinitionFormData.states v ≠ []
     ∧ Forall state_ok (WorkflowDefinitionFormData.states v)
     ∧ Forall transition_ok (WorkflowDefinitionFormData.transitions v))
  ∧ (schema v = [] → request_of (onSubmit mutateAsync v) = Some v)
  ∧ (schema v ≠ [] → onSubmit mutateAsync v = Invalid (schema v))
  ∧ (index < length states →
     initial_count (onInitialChange index true states) = 1
     ∧ (StateData.is_initial <$> (onInitialChange index true states !! index)) = Some true).
Proof.
  split_and!.
  - apply schema_accepts.
  - apply onSubmit_request.
  - intros Hne. unfold onSubmit, handleFormSubmit. by destruct (schema v).
  - intros Hlt. split; [by apply onInitialChange_one|].
    unfold onInitialChange. rewrite list_lookup_imap.
    destruct (lookup_lt_is_Some_2 states index Hlt) as [s ->]. cbn.
    by rewrite bool_decide_eq_true_2.
Qed.

Lemma C4_form_validation_witness :
  let a := StateData.mk None "Draft" "" true false in
  let b := StateData.mk None "Approved" "" true true in
  let v := WorkflowDefinitionFormData.mk "Approval" "" "1.0.0" [a; b] [] in
  request_of (onSubmit (λ _, true) v) = Some v
  ∧ initial_count (onInitialChange 1 true [a; b]) = 1.
Proof.
  cbn zeta.
  pose proof (C4_form_validation
                (WorkflowDefinitionFormData.mk "Approval" "" "1.0.0"
                   [StateData.mk None "Draft" "" true false;
                    StateData.mk None "Approved" "" true true] [])
                (λ _, true) 1
                [StateData.mk None "Draft" "" true false;
                 StateData.mk None "Approved" "" true true])
    as (_ & Hsend & _ & Hswitch).
  split.
  - apply Hsend. reflexivity.
  - apply Hswitch. cbn. lia.
Defined.

End SubmitFacts.

(** ** The state diagram *)

Section DiagramFacts.

Import StateDiagram.

Lemma drawableb_spec (t : Transition.t) : drawableb t = true ↔ drawable t.
Proof.
  unfold drawableb, drawable.
  destruct (Transition.from_state_id t) as [f|], (Transition.to_state_id t) as [g|];
    try (split; [done|]; intros (? & ? & ? & ? & _); done).
  destruct (String.eqb_spec f ""), (String.eqb_spec g ""), (String.eqb_spec f g); cbn;
    split; try done; try (intros (? & ? & [= <-] & [= <-] & ? & ? & ?); done).
  intros _. by exists f, g.
Qed.

Lemma createEdge_drawableb (index : nat) (t : Transition.t) :
  createEdge index t = if drawableb t then Some (edge_of index t) else None.
Proof.
  unfold createEdge, drawableb, edge_of, strict_eq, truthy.
  destruct (Transition.from_state_id t) as [f|], (Transition.to_state_id t) as [g|];
    try done.
  - by destruct (String.eqb f g), (String.eqb f ""), (String.eqb g "").
  - cbn. by destruct (String.eqb f "").
Qed.

Lemma createEdges_length_at (g : nat → nat) (ts : list Transition.t) :
  length (omap id (imap (λ i, createEdge (g i)) ts))
  = length (filter (λ t, drawableb t = true) ts).
Proof.
  revert g. induction ts as [|t ts IH]; intros g; [done|].
  destruct (drawableb t) eqn:Hd.
  - rewrite filter_cons_True by done. cbn.
    rewrite createEdge_drawableb, Hd. cbn. f_equal. apply (IH (g ∘ S)).
  - rewrite filter_cons_False by (rewrite Hd; done). cbn.
    rewrite createEdge_drawableb, Hd. apply (IH (g ∘ S)).
Qed.

Lemma createEdges_elem (ts : list Transition.t) (e : Edge.t) :
  e ∈ createEdges ts ↔ ∃ i t, ts !! i = Some t ∧ drawable t ∧ e = edge_of i t.
Proof.
  unfold createEdges. rewrite list_elem_of_omap. split.
  - intros (o & Hin & Ho). cbn in Ho. subst o.
    apply elem_of_lookup_imap in Hin as (i & t & Hc & Hl).
    rewrite createEdge_drawableb in Hc.
    destruct (drawableb t) eqn:Hd; [|done].
    injection Hc as ->. exists i, t. by rewrite <- drawableb_spec.
  - intros (i & t & Hl & Hd & ->). exists (Some (edge_of i t)). split; [|done].
    apply elem_of_lookup_imap. exists i, t. split; [|done].
    apply drawableb_spec in Hd. by rewrite createEdge_drawableb, Hd.
Qed.

Lemma createNode_id (total index : nat) (s : State.t) :
  Node.id (createNode total index s) = or_else (State.id s) (pretty index).
Proof.
  unfold createNode. by destruct (flag (State.is_initial s)), (flag (State.is_final s)).
Qed.

Lemma createNode_label (total index : nat) (s : State.t) :
  Node.label (createNode total index s) = State.name s.
Proof.
  unfold createNode. by destruct (flag (State.is_initial s)), (flag (State.is_final s)).
Qed.

(** C10: the diagram has one node per state, at the state's position in the
    list, identified by the state's id, or by the decimal index when the id
    is absent (or empty, which JavaScript's [||] treats alike); and one edge
    per transition whose endpoints are both non-empty and different, with
    these endpoints; a self-transition or a transition with a missing
    endpoint gives no edge. *)
Theorem C10_nodes_and_edges (states : list State.t) (transitions : list Transition.t) :
  length (createNodes states) = length states
  ∧ (∀ i s, states !! i = Some s →
       ∃ n, createNodes states !! i = Some n
            ∧ Node.label n = State.name s
            ∧ (∀ v, State.id s = Some v → v ≠ "" → Node.id n = v)
            ∧ (State.id s = None ∨ State.id s = Some "" → Node.id n = pretty i))
  ∧ length (createEdges transitions)
    = length (filter (λ t, drawableb t = true) transitions)
  ∧ (∀ t, drawableb t = true ↔ drawable t)
  ∧ (∀ e, e ∈ createEdges transitions ↔
          ∃ i t, transitions !! i = Some t ∧ drawable t ∧ e = edge_of i t)
  ∧ (∀ i t, transitions !! i = Some t → drawable t →
       createEdge i t = Some (edge_of i t)
       ∧ Some (Edge.source (edge_of i t)) = Transition.from_state_id t
       ∧ Some (Edge.target (edge_of i t)) = Transition.to_state_id t)
  ∧ (∀ i t, transitions !! i = Some t →
       Transition.from_state_id t = Transition.to_state_id t
       ∨ ¬ truthy (Transition.from_state_id t)
       ∨ ¬ truthy (Transition.to_state_id t) →
       createEdge i t = None).
Proof.
  split_and!.
  - apply length_imap.
  - intros i s Hs. unfold createNodes. rewrite list_lookup_imap, Hs. cbn.
    eexists. split; [done|]. split_and!.
    + apply createNode_label.
    + intros v Hv Hne. rewrite createNode_id, Hv. cbn.
      by destruct (String.eqb_spec v "").
    + intros [Hv|Hv]; by rewrite createNode_id, Hv.
  - apply (createEdges_length_at id).
  - apply drawableb_spec.
  - apply createEdges_elem.
  - intros i t _ Hd. pose proof Hd as Hb%drawableb_spec.
    rewrite createEdge_drawableb, Hb.
    destruct Hd as (f & g & Hf & Hg & _). unfold edge_of. cbn.
    by rewrite Hf, Hg.
  - intros i t _ Hbad. rewrite createEdge_drawableb.
    destruct (drawableb t) eqn:Hb; [|done].
    apply drawableb_spec in Hb as (f & g & Hf & Hg & Hf0 & Hg0 & Hfg).
    rewrite Hf, Hg in Hbad. cbn in Hbad.
    destruct Hbad as [[= ?]|[H|H]]; [done| |].
    + destruct H. by destruct (String.eqb_spec f "").
    + destruct H. by destruct (String.eqb_spec g "").
Qed.

Lemma C10_nodes_and_edges_witness :
  let a := State.mk (Some "s1") "Draft" (Some true) None in
  let b := State.mk None "Approved" None (Some true) in
  let go := Transition.mk (Some "t1") "Approve" (Some "s1") (Some "1") in
  let self := Transition.mk None "Stay" (Some "s1") (Some "s1") in
  (Node.id <$> createNodes [a; b]) = ["s1"; "1"]
  ∧ createEdge 0 go = Some (Edge.mk "t1" "s1" "1" "Approve")
  ∧ createEdge 1 self = None
  ∧ createEdges [go; self] = [Edge.mk "t1" "s1" "1" "Approve"].
Proof.
  cbn zeta.
  pose proof (C10_nodes_and_edges
                [State.mk (Some "s1") "Draft" (Some true) None;
                 State.mk None "Approved" None (Some true)]
                [Transition.mk (Some "t1") "Approve" (Some "s1") (Some "1");
                 Transition.mk None "Stay" (Some "s1") (Some "s1")])
    as (_ & _ & _ & _ & _ & Hedge & Hnone).
  split_and!.
  - reflexivity.
  - apply (Hedge 0); [reflexivity|].
    exists "s1", "1". split_and!; done.
  - apply (Hnone 1); [reflexivity|]. by left.
  - reflexivity.
Defined.

End DiagramFacts.

(** ** The JSON fields of the instance forms *)

Section JsonFormFacts.

Variable JSON_parse : string → option json.

Lemma is_valid_json_spec (text : string) :
  is_valid_json JSON_parse text = true ↔ text = "" ∨ is_Some (JSON_parse text).
Proof.
  unfold is_valid_json. destruct (String.eqb_spec text "") as [->|ne].
  - split; auto.
  - destruct (JSON_parse text) as [j|]; split; try done; eauto.
    intros [?|[? [=]]]; done.
Qed.

Lemma json_test_nil (path text : string) :
  json_test JSON_parse path text = [] ↔ text = "" ∨ is_Some (JSON_parse text).
Proof.
  rewrite <- is_valid_json_spec. unfold json_test.
  destruct (is_valid_json JSON_parse text); split; done.
Qed.

Lemma json_test_rejects (path text : string) :
  text ≠ "" → JSON_parse text = None →
  json_test JSON_parse path text = [(path, "Invalid JSON format")].
Proof.
  intros ne Hp. unfold json_test, is_valid_json.
  destruct (String.eqb_spec text ""); [done|]. by rewrite Hp.
Qed.

Lemma parsedData_spec (text : string) (parsed : json) :
  parsedData JSON_parse text = Some parsed ↔
    (text = "" ∧ parsed = JObj []) ∨ (text ≠ "" ∧ JSON_parse text = Some parsed).
Proof.
  unfold parsedData. destruct (String.eqb_spec text "") as [->|ne].
  - split; [intros [= <-]; auto|]. intros [[_ ->]|[? _]]; done.
  - split; [auto|]. intros [[? _]|[_ ?]]; done.
Qed.

Lemma data_error_absent (path message value text : string) :
  path ≠ "data" →
  ("data", "Invalid JSON format")
    ∉ (required path message value ++ json_test JSON_parse "data" text)%list
  ↔ text = "" ∨ is_Some (JSON_parse text).
Proof.
  intros ne. rewrite <- (json_test_nil "data"), not_elem_of_app.
  unfold required, json_test.
  destruct (String.eqb value ""), (is_valid_json JSON_parse text);
    rewrite ?elem_of_cons, ?elem_of_nil; intuition congruence.
Qed.

Lemma schema_pair_nil (path message value text : string) :
  required path message value ++ json_test JSON_parse "data" text = []
  ↔ value ≠ "" ∧ (text = "" ∨ is_Some (JSON_parse text)).
Proof. by rewrite app_nil, required_nil, json_test_nil. Qed.

Lemma parsedData_is_Some (text : string) :
  text = "" ∨ is_Some (JSON_parse text) → is_Some (parsedData JSON_parse text).
Proof.
  unfold parsedData. destruct (String.eqb_spec text "") as [->|ne]; [by eexists|].
  by intros [?|?].
Qed.

Lemma parsedData_accepted (text : string) :
  text = "" ∨ is_Some (JSON_parse text) →
  parsedData JSON_parse text
  = (if decide (text = "") then Some (JObj []) else JSON_parse text)
  ∧ is_Some (parsedData JSON_parse text).
Proof.
  intros Hok. split; [|by apply parsedData_is_Some].
  unfold parsedData. destruct (String.eqb_spec text "") as [->|ne].
  - by rewrite decide_True.
  - by rewrite decide_False.
Qed.

(** C9: in both instance forms the JSON text is accepted exactly when it is
    empty or [JSON.parse] succeeds on it: with the selection made and such a
    text, submitting sends the API one request, which names the selection and
    carries [JSON.parse] of the text, or the empty object when the text is
    empty, and a request is sent in no other case; a text that does not parse
    gets the message Invalid JSON format from the schema, the handler is not
    run and no request is made. *)
Theorem C9_json_data
    (mutateTransition : Api.TransitionWorkflowInstanceRequest.t → bool)
    (mutateCreate : Api.CreateWorkflowInstanceRequest.t → bool)
    (v : InstanceDetailPage.TransitionFormData.t) (w : NewInstancePage.FormData.t) :
  let selection := InstanceDetailPage.TransitionFormData.transition_id v in
  let selection' := NewInstancePage.FormData.workflow_definition_id w in
  let text := InstanceDetailPage.TransitionFormData.data v in
  let text' := NewInstancePage.FormData.data w in
  let sent := InstanceDetailPage.onSubmit JSON_parse mutateTransition v in
  let sent' := NewInstancePage.onSubmit JSON_parse mutateCreate w in
  (("data", "Invalid JSON format") ∉ InstanceDetailPage.transitionSchema JSON_parse v
   ↔ text = "" ∨ is_Some (JSON_parse text))
  ∧ (("data", "Invalid JSON format") ∉ NewInstancePage.schema JSON_parse w
     ↔ text' = "" ∨ is_Some (JSON_parse text'))
  ∧ (selection ≠ "" → text = "" ∨ is_Some (JSON_parse text) →
     request_of sent
     = Some (Api.TransitionWorkflowInstanceRequest.mk selection
               (if decide (text = "") then Some (JObj []) else JSON_parse text))
     ∧ errors_of sent = [])
  ∧ (selection' ≠ "" → text' = "" ∨ is_Some (JSON_parse text') →
     request_of sent'
     = Some (Api.CreateWorkflowInstanceRequest.mk selection'
               (if decide (text' = "") then Some (JObj []) else JSON_parse text'))
     ∧ errors_of sent' = [])
  ∧ (is_Some (request_of sent)
     → selection ≠ "" ∧ (text = "" ∨ is_Some (JSON_parse text)))
  ∧ (is_Some (request_of sent')
     → selection' ≠ "" ∧ (text' = "" ∨ is_Some (JSON_parse text')))
  ∧ (∀ r, request_of sent = Some r →
       Api.TransitionWorkflowInstanceRequest.transition_id r
       = InstanceDetailPage.TransitionFormData.transition_id v
       ∧ Api.TransitionWorkflowInstanceRequest.data r
         = (if decide (text = "") then Some (JObj []) else JSON_parse text)
       ∧ is_Some (Api.TransitionWorkflowInstanceRequest.data r))
  ∧ (∀ r, request_of sent' = Some r →
       Api.CreateWorkflowInstanceRequest.workflow_definition_id r
       = NewInstancePage.FormData.workflow_definition_id w
       ∧ Api.CreateWorkflowInstanceRequest.data r
         = (if decide (text' = "") then Some (JObj []) else JSON_parse text')
       ∧ is_Some (Api.CreateWorkflowInstanceRequest.data r))
  ∧ (text ≠ "" → JSON_parse text = None →
     sent = Invalid (InstanceDetailPage.transitionSchema JSON_parse v)
     ∧ ("data", "Invalid JSON format") ∈ errors_of sent
     ∧ request_of sent = None)
  ∧ (text' ≠ "" → JSON_parse text' = None →
     sent' = Invalid (NewInstancePage.schema JSON_parse w)
     ∧ ("data", "Invalid JSON format") ∈ errors_of sent'
     ∧ request_of sent' = None).
Proof.
  destruct v as [tid text], w as [did text']. cbn.
  split_and!.
  - by apply data_error_absent.
  - by apply data_error_absent.
  - intros Hsel Hok.
    assert (Hs : InstanceDetailPage.transitionSchema JSON_parse
                   (InstanceDetailPage.TransitionFormData.mk tid text) = []).
    { unfold InstanceDetailPage.transitionSchema. cbn. by apply schema_pair_nil. }
    unfold InstanceDetailPage.onSubmit. rewrite Hs.
    unfold InstanceDetailPage.handleTransitionSubmit. cbn.
    destruct (parsedData_accepted text Hok) as [-> [p Hp]]. rewrite Hp.
    by destruct (mutateTransition _).
  - intros Hsel Hok.
    assert (Hs : NewInstancePage.schema JSON_parse
                   (NewInstancePage.FormData.mk did text') = []).
    { unfold NewInstancePage.schema. cbn. by apply schema_pair_nil. }
    unfold NewInstancePage.onSubmit. rewrite Hs.
    unfold NewInstancePage.handleFormSubmit. cbn.
    destruct (parsedData_accepted text' Hok) as [-> [p Hp]]. rewrite Hp.
    by destruct (mutateCreate _).
  - rewrite <- (schema_pair_nil "transition_id" "Transition is required").
    unfold InstanceDetailPage.onSubmit, InstanceDetailPage.transitionSchema. cbn.
    destruct (required _ _ tid ++ json_test JSON_parse "data" text); [done|].
    by intros [? [=]].
  - rewrite <- (schema_pair_nil "workflow_definition_id" "Workflow definition is required").
    unfold NewInstancePage.onSubmit, NewInstancePage.schema. cbn.
    destruct (required _ _ did ++ json_test JSON_parse "data" text'); [done|].
    by intros [? [=]].
  - intros r. unfold InstanceDetailPage.onSubmit.
    destruct (InstanceDetailPage.transitionSchema JSON_parse _); [|done].
    unfold InstanceDetailPage.handleTransitionSubmit. cbn.
    destruct (parsedData JSON_parse text) as [parsed|] eqn:Hp; [|done].
    apply parsedData_spec in Hp.
    destruct (mutateTransition _); cbn; intros [= <-]; cbn;
      (split; [done|]); (split; [|by eexists]);
      destruct Hp as [[? ->]|[? Hq]], (decide (text = "")); try done;
      by rewrite Hq.
  - intros r. unfold NewInstancePage.onSubmit.
    destruct (NewInstancePage.schema JSON_parse _); [|done].
    unfold NewInstancePage.handleFormSubmit. cbn.
    destruct (parsedData JSON_parse text') as [parsed|] eqn:Hp; [|done].
    apply parsedData_spec in Hp.
    destruct (mutateCreate _); cbn; intros [= <-]; cbn;
      (split; [done|]); (split; [|by eexists]);
      destruct Hp as [[? ->]|[? Hq]], (decide (text' = "")); try done;
      by rewrite Hq.
  - intros ne Hp. unfold InstanceDetailPage.onSubmit, InstanceDetailPage.transitionSchema.
    cbn. rewrite (json_test_rejects "data" text ne Hp).
    destruct (required _ _ tid); cbn; split_and!; try done;
      rewrite ?elem_of_cons, ?elem_of_app, ?elem_of_cons; auto.
  - intros ne Hp. unfold NewInstancePage.onSubmit, NewInstancePage.schema.
    cbn. rewrite (json_test_rejects "data" text' ne Hp).
    destruct (required _ _ did); cbn; split_and!; try done;
      rewrite ?elem_of_cons, ?elem_of_app, ?elem_of_cons; auto.
Qed.

End JsonFormFacts.

Lemma C9_json_data_witness :
  let parse := λ text : string,
    if String.eqb text "[1]" then Some (JArr [JNum 1]) else None in
  let bad := InstanceDetailPage.TransitionFormData.mk "trans-1" "{comment: 1" in
  let good := InstanceDetailPage.TransitionFormData.mk "trans-1" "[1]" in
  let blank := NewInstancePage.FormData.mk "def-1" "" in
  request_of (InstanceDetailPage.onSubmit parse (λ _, true) bad) = None
  ∧ request_of (InstanceDetailPage.onSubmit parse (λ _, false) good)
    = Some (Api.TransitionWorkflowInstanceRequest.mk "trans-1" (Some (JArr [JNum 1])))
  ∧ request_of (NewInstancePage.onSubmit parse (λ _, true) blank)
    = Some (Api.CreateWorkflowInstanceRequest.mk "def-1" (Some (JObj []))).
Proof.
  cbn zeta. split_and!.
  - apply (C9_json_data _ (λ _, true) (λ _, true)
             (InstanceDetailPage.TransitionFormData.mk "trans-1" "{comment: 1")
             (NewInstancePage.FormData.mk "def-1" "")); cbn; done.
  - apply (C9_json_data
             (λ text : string, if String.eqb text "[1]" then Some (JArr [JNum 1]) else None)
             (λ _, false) (λ _, true)
             (InstanceDetailPage.TransitionFormData.mk "trans-1" "[1]")
             (NewInstancePage.FormData.mk "def-1" "")); cbn; [done|].
    right. by eexists.
  - apply (C9_json_data
             (λ text : string, if String.eqb text "[1]" then Some (JArr [JNum 1]) else None)
             (λ _, false) (λ _, true)
             (InstanceDetailPage.TransitionFormData.mk "trans-1" "[1]")
             (NewInstancePage.FormData.mk "def-1" "")); cbn; [done|].
    by left.
Defined.

(** ** The list operations of the rule engine *)

(** C7, as stated, fails: with an empty operand, contains_all does not return
    true for every context and every field value: it evaluates to false when
    the field path is missing from the context, and it fails with
    EvaluationError, as contains_any does, when the field value is not a
    list. *)
Lemma C7_empty_operand_not_always :
  let ctx := [("name", JStr "n")] in
  Core.resolve ctx "tags" = None
  ∧ Core.evaluate_ListOp "tags" Core.contains_all [] ctx = Core.Ok false
  ∧ Core.resolve ctx "name" = Some (JStr "n")
  ∧ Core.evaluate_ListOp "name" Core.contains_all [] ctx = Core.Err Core.EvaluationError
  ∧ Core.evaluate_ListOp "name" Core.contains_any [] ctx = Core.Err Core.EvaluationError.
Proof. cbn zeta. split_and!; reflexivity. Qed.

(** C7, amended: whatever the context, when the field path resolves to a list
    value, whatever that list, a ListOp with operation contains_all and an
    empty operand evaluates to true and one with contains_any and an empty
    operand to false; contains_all with an empty operand evaluates to true in
    no other case, and contains_any with an empty operand never evaluates to
    true: when the path is missing both evaluate to false, and when the field
    value is not a list both fail with EvaluationError. *)
Theorem C7_empty_operand (ctx : Core.Context) (field_path : string) :
  let all := Core.evaluate_ListOp field_path Core.contains_all [] ctx in
  let any := Core.evaluate_ListOp field_path Core.contains_any [] ctx in
  (∀ value, Core.list_op Core.contains_all value [] = true
            ∧ Core.list_op Core.contains_any value [] = false)
  ∧ (∀ value, Core.resolve ctx field_path = Some (JArr value) →
       all = Core.Ok true ∧ any = Core.Ok false)
  ∧ (Core.resolve ctx field_path = None → all = Core.Ok false ∧ any = Core.Ok false)
  ∧ (∀ v, Core.resolve ctx field_path = Some v → as_array v = None →
       all = Core.Err Core.EvaluationError ∧ any = Core.Err Core.EvaluationError)
  ∧ (all = Core.Ok true ↔ ∃ value, Core.resolve ctx field_path = Some (JArr value))
  ∧ any ≠ Core.Ok true.
Proof.
  cbn zeta. unfold Core.evaluate_ListOp. split_and!.
  - done.
  - by intros value ->.
  - by intros ->.
  - intros v -> Hv. by destruct v.
  - destruct (Core.resolve ctx field_path) as [[]|]; cbn; split;
      try done; try (by intros [? [=]]); by eexists.
  - by destruct (Core.resolve ctx field_path) as [[]|].
Qed.

Example list_op_examples :
  let tags := [JStr "a"; JStr "b"; JStr "a"] in
  Core.list_op Core.contains_all tags [JStr "b"; JStr "a"] = true
  ∧ Core.list_op Core.contains_all tags [JStr "c"] = false
  ∧ Core.list_op Core.contains_any tags [JStr "c"; JStr "b"] = true
  ∧ Core.list_op Core.equals tags [JStr "b"; JStr "a"] = true
  ∧ Core.list_op Core.is_subset [] [JStr "c"] = true
  ∧ Core.list_op Core.is_superset tags [] = true.
Proof. cbn zeta. split_and!; reflexivity. Qed.

Lemma C7_empty_operand_witness :
  let ctx := [("request", JObj [("tags", JArr [JStr "high_priority"; JStr "equipment"])]);
              ("approvals", JArr [])] in
  Core.evaluate_ListOp "request.tags" Core.contains_all [] ctx = Core.Ok true
  ∧ Core.evaluate_ListOp "request.tags" Core.contains_any [] ctx = Core.Ok false.
Proof.
  cbn zeta.
  apply (C7_empty_operand _ "request.tags") with [JStr "high_priority"; JStr "equipment"].
  reflexivity.
Defined.

(** ** The workflow engine *)

Section EngineFacts.

Import Core.

Variable evaluate : string → Context → Result bool.

Lemma commit_history d now ctx t i :
  WorkflowInstance.history (commit d now ctx t i)
  = WorkflowInstance.history i
    ++ [ HistoryEntry.mk (Some (WorkflowInstance.current_state_id i))
           (Transition.target_state_id t) (Some (Transition.id t)) now ctx ].
Proof. done. Qed.

Lemma commit_status d now ctx t i :
  WorkflowInstance.status (commit d now ctx t i)
  = if is_end d (Transition.target_state_id t) then completed
    else WorkflowInstance.status i.
Proof. done. Qed.

Lemma commit_current d now ctx t i :
  WorkflowInstance.current_state_id (commit d now ctx t i) = Transition.target_state_id t.
Proof. done. Qed.

#[local] Arguments commit : simpl never.

Lemma commit_at_last_committed d now ctx t i : at_last_committed (commit d now ctx t i).
Proof.
  unfold at_last_committed, last_committed. rewrite commit_history, last_snoc. done.
Qed.

Lemma commit_entry_committed i t now ctx :
  committed_entry
    (HistoryEntry.mk (Some (WorkflowInstance.current_state_id i))
       (Transition.target_state_id t) (Some (Transition.id t)) now ctx).
Proof. split; by eexists. Qed.

Lemma first_match_error ts ctx e :
  (∀ r c, evaluate r c ≠ Err MaxHopsExceeded) →
  first_match evaluate ts ctx = Err e → e ≠ MaxHopsExceeded.
Proof.
  intros Hrules. induction ts as [|t ts IH]; [done|]. cbn.
  unfold guard. destruct (Transition.rule_id t) as [r|]; [|done].
  destruct (evaluate r ctx) as [[]|e'] eqn:He; [done|done|].
  intros [= <-] ->. by eapply Hrules.
Qed.

Lemma first_match_elem ts ctx t :
  first_match evaluate ts ctx = Ok (Some t) → t ∈ ts ∧ guard evaluate t ctx = Ok true.
Proof.
  induction ts as [|t' ts IH]; [done|]. cbn.
  destruct (guard evaluate t' ctx) as [[]|e] eqn:Hg; [| |done].
  - intros [= ->]. split; [left|done].
  - intros [Hin Ht]%IH. split; [by right|done].
Qed.

(** What one run of the loop does to the history, whatever the outcome. *)
Lemma run_loop_history d now hops i :
  ∃ commits,
    WorkflowInstance.history (run_loop evaluate d now hops i).1
    = WorkflowInstance.history i ++ commits
    ∧ (length commits ≤ hops)%nat
    ∧ Forall committed_entry commits
    ∧ (at_last_committed i → at_last_committed (run_loop evaluate d now hops i).1).
Proof.
  assert (∀ j : WorkflowInstance.t, at_last_committed j → at_last_committed (fail j))
    as Hfail by done.
  revert i. induction hops as [|hops IH]; intros i; cbn.
  - exists []. rewrite app_nil_r.
    destruct (first_match evaluate _ _) as [[t|]|e]; cbn; split_and!; auto.
  - destruct (first_match evaluate _ _) as [[t|]|e]; cbn.
    + set (i' := commit d now (WorkflowInstance.context i) t i).
      assert (WorkflowInstance.history i'
              = WorkflowInstance.history i
                ++ [ HistoryEntry.mk (Some (WorkflowInstance.current_state_id i))
                       (Transition.target_state_id t) (Some (Transition.id t)) now
                       (WorkflowInstance.context i) ]) as Hi' by apply commit_history.
      assert (at_last_committed i') as Hl' by apply commit_at_last_committed.
      pose proof (commit_entry_committed i t now (WorkflowInstance.context i)) as Hc.
      destruct (WorkflowInstance.status i') eqn:Hst; cbn;
        try (eexists; split; [exact Hi'|]; split_and!; [cbn; lia|by constructor|done]).
      destruct (IH i') as (commits & Hh & Hlen & Hall & Hlast).
      eexists. split; [rewrite Hh, Hi', <- app_assoc; done|].
      split_and!; [cbn; lia|by constructor|auto].
    + exists []. rewrite app_nil_r. split_and!; [done|cbn; lia|done|done].
    + exists []. rewrite app_nil_r. split_and!; [done|cbn; lia|done|auto].
Qed.

(** When the budget runs out, all of it was spent on commits, and the
    instance is still active. *)
Lemma run_loop_exceeded d now hops i :
  (∀ r c, evaluate r c ≠ Err MaxHopsExceeded) →
  (run_loop evaluate d now hops i).2 = Err MaxHopsExceeded →
  length (WorkflowInstance.history (run_loop evaluate d now hops i).1)
  = length (WorkflowInstance.history i) + hops
  ∧ WorkflowInstance.status (run_loop evaluate d now hops i).1 = WorkflowInstance.status i.
Proof.
  intros Hrules. revert i. induction hops as [|hops IH]; intros i; cbn.
  - destruct (first_match evaluate _ _) as [[t|]|e] eqn:Hm; cbn.
    + intros _. split; [lia|done].
    + done.
    + intros [= ->]. by apply first_match_error in Hm.
  - destruct (first_match evaluate _ _) as [[t|]|e] eqn:Hm; cbn.
    + set (i' := commit d now (WorkflowInstance.context i) t i).
      destruct (WorkflowInstance.status i') eqn:Hst; cbn; try done.
      intros Hout. destruct (IH i' Hout) as [Hlen Hs].
      rewrite Hlen, Hs. unfold i' in *. rewrite commit_history, length_app. cbn.
      split; [lia|]. rewrite commit_status in *.
      by destruct (is_end d (Transition.target_state_id t)).
    + done.
    + intros [= ->]. by apply first_match_error in Hm.
Qed.

(** The budget is exceeded when it was all spent on hops and a transition
    still matches. *)
Lemma run_loop_budget_spent d now hops i i' :
  nsteps (hop evaluate d now) hops i i' → can_advance evaluate d i' →
  run_loop evaluate d now hops i = (i', Err MaxHopsExceeded).
Proof.
  induction 1 as [i|n i i1 i' (t & Hm & -> & Hst) _ IH]; intros Hadv.
  - destruct Hadv as [t Ht]. cbn. by rewrite Ht.
  - cbn. rewrite Hm. cbn zeta. rewrite Hst. by apply IH.
Qed.

Lemma run_loop_exceeded_hops d now hops i i' :
  (∀ r c, evaluate r c ≠ Err MaxHopsExceeded) →
  run_loop evaluate d now hops i = (i', Err MaxHopsExceeded) →
  nsteps (hop evaluate d now) hops i i' ∧ can_advance evaluate d i'.
Proof.
  intros Hrules. revert i. induction hops as [|hops IH]; intros i; cbn.
  - destruct (first_match evaluate _ _) as [[t|]|e] eqn:Hm.
    + intros [= <-]. split; [constructor|by exists t].
    + done.
    + intros [= _ ->]. by apply first_match_error in Hm.
  - destruct (first_match evaluate _ _) as [[t|]|e] eqn:Hm.
    + set (i1 := commit d now (WorkflowInstance.context i) t i).
      destruct (WorkflowInstance.status i1) eqn:Hst; try done.
      intros Hout. destruct (IH i1 Hout) as [Hs Ha]. split; [|done].
      eapply nsteps_l; [|done]. by exists t.
    + done.
    + intros [= _ ->]. by apply first_match_error in Hm.
Qed.

(** Within the budget, the run stops where no transition matches. *)
Lemma run_loop_suspended d now n hops i i' :
  (n ≤ hops)%nat → nsteps (hop evaluate d now) n i i' →
  first_match evaluate (outgoing d (WorkflowInstance.current_state_id i'))
    (WorkflowInstance.context i') = Ok None →
  run_loop evaluate d now hops i = (i', Ok ()).
Proof.
  intros Hle Hsteps. revert hops Hle.
  induction Hsteps as [i|n i i1 i' (t & Hm & -> & Hst) _ IH]; intros hops Hle Hnone.
  - destruct hops; cbn; by rewrite Hnone.
  - destruct hops as [|hops]; [lia|]. cbn. rewrite Hm. cbn zeta. rewrite Hst.
    apply IH; [lia|done].
Qed.

End EngineFacts.

Section EngineOperations.

Import Core.

Variable evaluate : string → Context → Result bool.

Lemma run_instance_history d now i max_hops :
  ∃ commits,
    WorkflowInstance.history (run_instance evaluate d now i max_hops).1
    = WorkflowInstance.history i ++ commits
    ∧ (length commits ≤ max_hops)%nat
    ∧ Forall committed_entry commits
    ∧ (at_last_committed i
       → at_last_committed (run_instance evaluate d now i max_hops).1).
Proof.
  unfold run_instance.
  destruct (WorkflowInstance.status i);
    try (exists []; rewrite app_nil_r; split_and!; [done|cbn; lia|done|done]).
  apply run_loop_history.
Qed.

Lemma transition_instance_history d now i transition_id data_patch i' :
  transition_instance evaluate d now i transition_id data_patch = Ok i' →
  ∃ t e, t ∈ WorkflowDefinition.transitions d
         ∧ Transition.id t = transition_id
         ∧ Transition.source_state_id t = WorkflowInstance.current_state_id i
         ∧ WorkflowInstance.history i' = WorkflowInstance.history i ++ [e]
         ∧ committed_entry e
         ∧ HistoryEntry.transition_id e = Some transition_id
         ∧ HistoryEntry.from_state_id e = Some (WorkflowInstance.current_state_id i).
Proof.
  unfold transition_instance.
  destruct (list_find _ _) as [[k t]|] eqn:Hfind; [|done].
  apply list_find_Some in Hfind as (Hk & Hid & _).
  case_bool_decide as Hsrc; [|done].
  destruct (guard evaluate t _) as [[]|e]; [|done|done].
  intros [= <-]. eexists t, _. split_and!.
  - by eapply list_elem_of_lookup_2.
  - done.
  - done.
  - apply commit_history.
  - apply commit_entry_committed.
  - cbn. by rewrite Hid.
  - done.
Qed.

Lemma transition_instance_wrong_origin d now i transition_id data_patch :
  (∀ t, t ∈ WorkflowDefinition.transitions d → Transition.id t = transition_id →
        Transition.source_state_id t ≠ WorkflowInstance.current_state_id i) →
  transition_instance evaluate d now i transition_id data_patch = Err InvalidTransition.
Proof.
  intros Hwrong. unfold transition_instance.
  destruct (list_find _ _) as [[k t]|] eqn:Hfind; [|done].
  apply list_find_Some in Hfind as (Hk & Hid & _).
  rewrite bool_decide_eq_false_2; [done|].
  apply Hwrong; [by eapply list_elem_of_lookup_2|done].
Qed.

Lemma history_shape_app h commits :
  history_shape h → Forall committed_entry commits → history_shape (h ++ commits).
Proof.
  intros (e0 & rest & -> & Hinit & Hrest) Hall.
  exists e0, (rest ++ commits). split_and!; [done|done|].
  by apply Forall_app.
Qed.

Lemma reachable_history_shape d i :
  reachable evaluate d i → history_shape (WorkflowInstance.history i).
Proof.
  induction 1 as [definitions instance_id now definition_id ctx i Hd Hc
                 |now i transition_id data_patch i' _ IH Ht
                 |now i max_hops _ IH].
  - unfold create_instance in Hc. rewrite Hd in Hc.
    destruct (list_find _ _) as [[k s]|]; [|done].
    injection Hc as <-. cbn. eexists _, []. split_and!; done.
  - apply transition_instance_history in Ht as (t & e & _ & _ & _ & -> & He & _).
    apply history_shape_app; [done|]. by constructor.
  - destruct (run_instance_history d now i max_hops) as (commits & -> & _ & Hall & _).
    by apply history_shape_app.
Qed.

Lemma history_shape_lookup h k e :
  history_shape h → h !! k = Some e →
  (HistoryEntry.from_state_id e = None ↔ k = 0)
  ∧ (HistoryEntry.transition_id e = None ↔ k = 0).
Proof.
  intros (e0 & rest & -> & [Hf Ht] & Hrest) Hk.
  destruct k as [|k]; cbn in Hk.
  - injection Hk as <-. done.
  - rewrite Forall_lookup in Hrest. destruct (Hrest k e Hk) as [[f Hf'] [t Ht']].
    rewrite Hf', Ht'. done.
Qed.

(** C2: the transitions offered for an explicit transition request are exactly
    the definition's transitions whose from-state is the instance's current
    state (these, in the definition's order, are the entries of the select);
    and [transition_instance] with a transition id that does not originate
    from the current State fails with InvalidTransition. *)
Theorem C2_available_transitions
    (definition : Api.WorkflowDefinition.t) (instance : Api.WorkflowInstance.t)
    (d : WorkflowDefinition.t) (now : nat) (i : WorkflowInstance.t)
    (transition_id : string) (data_patch : Context) :
  InstanceDetailPage.getAvailableTransitions (Some definition) (Some instance)
  = filter (λ t, Api.WorkflowTransition.from_state_id t
                 = Api.WorkflowInstance.current_state_id instance)
      (Api.WorkflowDefinition.transitions definition)
  ∧ (∀ t, t ∈ InstanceDetailPage.getAvailableTransitions (Some definition) (Some instance)
          ↔ t ∈ Api.WorkflowDefinition.transitions definition
            ∧ Api.WorkflowTransition.from_state_id t
              = Api.WorkflowInstance.current_state_id instance)
  ∧ (InstanceDetailPage.transitionMenuItems definition instance).*1
    = Api.WorkflowTransition.id
        <$> InstanceDetailPage.getAvailableTransitions (Some definition) (Some instance)
  ∧ ((∀ t, t ∈ WorkflowDefinition.transitions d → Transition.id t = transition_id →
           Transition.source_state_id t ≠ WorkflowInstance.current_state_id i) →
     transition_instance evaluate d now i transition_id data_patch = Err InvalidTransition).
Proof.
  split_and!.
  - done.
  - intros t. unfold InstanceDetailPage.getAvailableTransitions.
    rewrite list_elem_of_filter. tauto.
  - unfold InstanceDetailPage.transitionMenuItems.
    induction (InstanceDetailPage.getAvailableTransitions _ _) as [|t l IH]; [done|].
    cbn. by rewrite <- IH.
  - apply transition_instance_wrong_origin.
Qed.

(** C6: in the history of every instance the engine holds, [from_state_id]
    and [transition_id] are null on the first entry, the one written at
    creation, and on no other; every operation only appends: an explicit
    transition adds one entry that names its origin State and its Transition,
    a run keeps the history it found as a prefix. *)
Theorem C6_history (d : WorkflowDefinition.t) (i : WorkflowInstance.t) :
  reachable evaluate d i →
  history_shape (WorkflowInstance.history i)
  ∧ (∀ k e, WorkflowInstance.history i !! k = Some e →
       (HistoryEntry.from_state_id e = None ↔ k = 0)
       ∧ (HistoryEntry.transition_id e = None ↔ k = 0))
  ∧ (∀ now transition_id data_patch i',
       transition_instance evaluate d now i transition_id data_patch = Ok i' →
       ∃ e, WorkflowInstance.history i' = WorkflowInstance.history i ++ [e]
            ∧ HistoryEntry.from_state_id e = Some (WorkflowInstance.current_state_id i)
            ∧ HistoryEntry.transition_id e = Some transition_id)
  ∧ (∀ now max_hops,
       ∃ commits,
         WorkflowInstance.history (run_instance evaluate d now i max_hops).1
         = WorkflowInstance.history i ++ commits
         ∧ Forall committed_entry commits).
Proof.
  intros Hreach. pose proof (reachable_history_shape d i Hreach) as Hshape.
  split_and!.
  - done.
  - intros k e. by apply history_shape_lookup.
  - intros now transition_id data_patch i' Ht.
    apply transition_instance_history in Ht as (t & e & _ & _ & _ & -> & _ & Hid & Hfrom).
    by exists e.
  - intros now max_hops.
    destruct (run_instance_history d now i max_hops) as (commits & Hh & _ & Hall & _).
    by exists commits.
Qed.

(** C8: [run_instance] returns after committing at most [max_hops]
    transitions.  It fails with MaxHopsExceeded when the budget was all spent,
    on [max_hops] hops that each left the instance active, and a transition
    still matches; the instance is then the one the last hop left, active and
    at its last committed State, with [max_hops] entries more in its history;
    it fails so in no other case.  Where no transition matches after a number
    of hops within the budget it returns without error.  On the unconditional
    cycle from X to X with [max_hops] 5 it fails with MaxHopsExceeded after 5
    commits, the history having 6 entries. *)
Theorem C8_max_hops (d : WorkflowDefinition.t) (now : nat) (i i' : WorkflowInstance.t)
    (max_hops : nat) :
  let result := run_instance evaluate d now i max_hops in
  (∃ commits,
     WorkflowInstance.history result.1 = WorkflowInstance.history i ++ commits
     ∧ (length commits ≤ max_hops)%nat
     ∧ (at_last_committed i → at_last_committed result.1))
  ∧ (WorkflowInstance.status i = active →
     nsteps (hop evaluate d now) max_hops i i' →
     can_advance evaluate d i' →
     result = (i', Err MaxHopsExceeded))
  ∧ ((∀ r c, evaluate r c ≠ Err MaxHopsExceeded) →
     result = (i', Err MaxHopsExceeded) →
     WorkflowInstance.status i = active
     ∧ nsteps (hop evaluate d now) max_hops i i'
     ∧ can_advance evaluate d i')
  ∧ ((∀ r c, evaluate r c ≠ Err MaxHopsExceeded) →
     result.2 = Err MaxHopsExceeded →
     length (WorkflowInstance.history result.1)
     = length (WorkflowInstance.history i) + max_hops
     ∧ WorkflowInstance.status result.1 = active)
  ∧ (∀ n, (n ≤ max_hops)%nat →
       WorkflowInstance.status i = active →
       nsteps (hop evaluate d now) n i i' →
       first_match evaluate (outgoing d (WorkflowInstance.current_state_id i'))
         (WorkflowInstance.context i') = Ok None →
       result = (i', Ok ()))
  ∧ (∃ created,
       create_instance {[ "cycle" := cycle ]} "instance-1" now "cycle" [] = Ok created
       ∧ length (WorkflowInstance.history created) = 1
       ∧ (run_instance evaluate cycle now created 5).2 = Err MaxHopsExceeded
       ∧ length (WorkflowInstance.history (run_instance evaluate cycle now created 5).1) = 6
       ∧ WorkflowInstance.current_state_id (run_instance evaluate cycle now created 5).1
         = "X"
       ∧ at_last_committed (run_instance evaluate cycle now created 5).1).
Proof.
  cbn zeta. split_and!.
  - destruct (run_instance_history d now i max_hops) as (commits & Hh & Hlen & _ & Hlast).
    by exists commits.
  - intros Hst Hsteps Hadv. unfold run_instance. rewrite Hst.
    by apply run_loop_budget_spent.
  - intros Hrules. unfold run_instance.
    destruct (WorkflowInstance.status i) eqn:Hst; try done.
    intros Hout. split; [done|]. by apply run_loop_exceeded_hops.
  - intros Hrules. unfold run_instance.
    destruct (WorkflowInstance.status i) eqn:Hst; cbn; try done.
    intros Hout. destruct (run_loop_exceeded evaluate d now max_hops i Hrules Hout) as [-> ->].
    done.
  - intros n Hle Hst Hsteps Hnone. unfold run_instance. rewrite Hst.
    by eapply run_loop_suspended.
  - eexists. split.
    { unfold create_instance. rewrite lookup_singleton_eq. reflexivity. }
    split_and!; reflexivity.
Qed.

End EngineOperations.

Lemma C2_available_transitions_witness :
  let approve := Core.Transition.mk "approve" "review" "done" None in
  let d := Core.WorkflowDefinition.mk "wf" "Review" "1"
             [Core.State.mk "draft" "Draft" Core.kind_start;
              Core.State.mk "review" "Review" Core.kind_normal;
              Core.State.mk "done" "Done" Core.kind_end]
             [Core.Transition.mk "submit" "draft" "review" None; approve] in
  let i := Core.WorkflowInstance.mk "instance-1" "wf" "draft" [] Core.active
             [Core.HistoryEntry.mk None "draft" None 0 []] in
  Core.transition_instance (λ _ _, Core.Err Core.UnknownRule) d 1 i "approve" []
  = Core.Err Core.InvalidTransition.
Proof.
  cbn zeta.
  apply (C2_available_transitions (λ _ _, Core.Err Core.UnknownRule)
           (Api.WorkflowDefinition.mk "def-1" "Approval Workflow" "" "1.0.0" [] [] "" "")
           (Api.WorkflowInstance.mk "inst-1" "def-1" "state-1" [] Api.Status.active "" "")).
  intros t Hin Hid. cbn in Hin.
  apply elem_of_cons in Hin as [->|Hin]; [done|].
  apply elem_of_cons in Hin as [->|Hin]; [done|].
  by apply elem_of_nil in Hin.
Defined.

Lemma C6_history_witness :
  let created := Core.WorkflowInstance.mk "instance-1" "cycle" "X" [] Core.active
                   [Core.HistoryEntry.mk None "X" None 0 []] in
  let e := Core.HistoryEntry.mk (Some "X") "X" (Some "loop") 1 [] in
  Core.WorkflowInstance.history
    (Core.run_instance (λ _ _, Core.Err Core.UnknownRule) Core.cycle 1 created 2).1
  = [Core.HistoryEntry.mk None "X" None 0 []; e; e]
  ∧ Core.history_shape
      (Core.WorkflowInstance.history
         (Core.run_instance (λ _ _, Core.Err Core.UnknownRule) Core.cycle 1 created 2).1).
Proof.
  cbn zeta. split; [reflexivity|].
  apply (C6_history (λ _ _, Core.Err Core.UnknownRule) Core.cycle).
  apply Core.reachable_run.
  apply (Core.reachable_create _ _ {[ "cycle" := Core.cycle ]} "instance-1" 0 "cycle" []).
  - apply lookup_singleton_eq.
  - unfold Core.create_instance. rewrite lookup_singleton_eq. reflexivity.
Defined.

Lemma C8_max_hops_witness :
  let first := Core.HistoryEntry.mk None "X" None 0 [] in
  let e := Core.HistoryEntry.mk (Some "X") "X" (Some "loop") 1 [] in
  let created := Core.WorkflowInstance.mk "instance-1" "cycle" "X" [] Core.active [first] in
  Core.run_instance (λ _ _, Core.Err Core.UnknownRule) Core.cycle 1 created 5
  = (Core.WorkflowInstance.mk "instance-1" "cycle" "X" [] Core.active
       [first; e; e; e; e; e],
     Core.Err Core.MaxHopsExceeded).
Proof.
  cbn zeta.
  apply (C8_max_hops (λ _ _, Core.Err Core.UnknownRule) Core.cycle 1
           (Core.WorkflowInstance.mk "instance-1" "cycle" "X" [] Core.active
              [Core.HistoryEntry.mk None "X" None 0 []])).
  - reflexivity.
  - do 5 (eapply nsteps_l;
            [eexists; split; [reflexivity|split; [reflexivity|reflexivity]]|]).
    apply nsteps_O.
  - eexists. reflexivity.
Defined.

(** The other two scenarios of section 8 of the specification, run on the
    model. *)
Example linear_scenario :
  ∃ created,
    Core.create_instance {[ "linear" := Core.linear ]} "instance-1" 0 "linear" []
    = Core.Ok created
    ∧ let result := Core.run_instance Core.large_amount_rules Core.linear 1 created 10 in
      result.2 = Core.Ok ()
      ∧ Core.WorkflowInstance.status result.1 = Core.completed
      ∧ Core.WorkflowInstance.current_state_id result.1 = "C"
      ∧ length (Core.WorkflowInstance.history result.1) = 3.
Proof.
  eexists. split.
  { unfold Core.create_instance. rewrite lookup_singleton_eq. reflexivity. }
  cbn zeta. split_and!; reflexivity.
Qed.

Example guarded_scenario :
  ∃ created,
    Core.create_instance {[ "guarded" := Core.guarded ]} "instance-1" 0 "guarded"
      [("amount", JNum 500)] = Core.Ok created
    ∧ Core.run_instance Core.large_amount_rules Core.guarded 1 created 10
      = (created, Core.Ok ())
    ∧ Core.transition_instance Core.large_amount_rules Core.guarded 2 created "a-b" []
      = Core.Err Core.InvalidTransition
    ∧ ∃ moved,
        Core.transition_instance Core.large_amount_rules Core.guarded 2 created "a-b"
          [("amount", JNum 1500)] = Core.Ok moved
        ∧ Core.WorkflowInstance.current_state_id moved = "B"
        ∧ Core.WorkflowInstance.context moved = [("amount", JNum 1500)]
        ∧ length (Core.WorkflowInstance.history moved) = 2.
Proof.
  eexists. split.
  { unfold Core.create_instance. rewrite lookup_singleton_eq. reflexivity. }
  split_and!; [reflexivity|reflexivity|].
  eexists. split_and!; reflexivity.
Qed.

(** * Further properties of the pages *)

(** ** Names looked up by id *)

Section NameLookup.

Context {A : Type} (key name : A → string) (fallback : string).

(** [items.find((x) => x.id === wanted)?.name || fallback] *)
Let lookup_name (items : list A) (wanted : string) : string :=
  or_else (name <$> (snd <$> list_find (λ x, key x = wanted) items)) fallback.

Lemma or_else_nonempty (s : option string) (fb : string) : fb ≠ "" → or_else s fb ≠ "".
Proof.
  intros Hfb. destruct s as [v|]; cbn; [|done].
  by destruct (String.eqb_spec v "").
Qed.

Lemma lookup_name_missing (items : list A) (wanted : string) :
  (∀ x, x ∈ items → key x ≠ wanted) → lookup_name items wanted = fallback.
Proof.
  intros Hnone. unfold lookup_name.
  destruct (list_find _ items) as [[k x]|] eqn:Hfind; [|done].
  apply list_find_Some in Hfind as (Hk & Hx & _).
  destruct (Hnone x); [by eapply list_elem_of_lookup_2|done].
Qed.

Lemma lookup_name_found (items : list A) (x : A) :
  NoDup (key <$> items) → x ∈ items → name x ≠ "" →
  lookup_name items (key x) = name x.
Proof.
  intros Hnodup Hin Hname. unfold lookup_name.
  destruct (list_find_elem_of (λ y, key y = key x) items x Hin eq_refl) as [[j y] Hfind].
  rewrite Hfind. cbn.
  apply list_find_Some in Hfind as (Hj & Hy & _).
  apply list_elem_of_lookup in Hin as [k Hk].
  assert (j = k) as ->.
  { eapply NoDup_lookup; [exact Hnodup| |].
    - by rewrite list_lookup_fmap, Hj.
    - rewrite list_lookup_fmap, Hk. cbn. by rewrite Hy. }
  assert (y = x) as -> by congruence.
  by destruct (String.eqb_spec (name x) "").
Qed.

End NameLookup.

(** X1: on the instance detail page, the name shown for a state id is never
    blank; it is Unknown State when no definition is loaded or no state has
    that id; and when the state ids are distinct it is the name of the state
    with that id, if that name is not empty.  The same holds for transition
    names, with System Transition as the fallback. *)
Theorem detail_names_by_id (definition : Api.WorkflowDefinition.t)
    (s : Api.WorkflowState.t) (t : Api.WorkflowTransition.t) (wanted : string) :
  let states := Api.WorkflowDefinition.states definition in
  let transitions := Api.WorkflowDefinition.transitions definition in
  InstanceDetailPage.getStateName None wanted = "Unknown State"
  ∧ InstanceDetailPage.getTransitionName None wanted = "System Transition"
  ∧ InstanceDetailPage.getStateName (Some definition) wanted ≠ ""
  ∧ InstanceDetailPage.getTransitionName (Some definition) wanted ≠ ""
  ∧ ((∀ x, x ∈ states → Api.WorkflowState.id x ≠ wanted) →
     InstanceDetailPage.getStateName (Some definition) wanted = "Unknown State")
  ∧ ((∀ x, x ∈ transitions → Api.WorkflowTransition.id x ≠ wanted) →
     InstanceDetailPage.getTransitionName (Some definition) wanted = "System Transition")
  ∧ (NoDup (Api.WorkflowState.id <$> states) → s ∈ states →
     Api.WorkflowState.name s ≠ "" →
     InstanceDetailPage.getStateName (Some definition) (Api.WorkflowState.id s)
     = Api.WorkflowState.name s)
  ∧ (NoDup (Api.WorkflowTransition.id <$> transitions) → t ∈ transitions →
     Api.WorkflowTransition.name t ≠ "" →
     InstanceDetailPage.getTransitionName (Some definition) (Api.WorkflowTransition.id t)
     = Api.WorkflowTransition.name t).
Proof.
  cbn zeta. split_and!; try done.
  - by apply or_else_nonempty.
  - by apply or_else_nonempty.
  - apply (lookup_name_missing Api.WorkflowState.id Api.WorkflowState.name).
  - apply (lookup_name_missing Api.WorkflowTransition.id Api.WorkflowTransition.name).
  - apply (lookup_name_found Api.WorkflowState.id Api.WorkflowState.name).
  - apply (lookup_name_found Api.WorkflowTransition.id Api.WorkflowTransition.name).
Qed.

Lemma detail_names_by_id_witness :
  let draft := Api.WorkflowState.mk "state-1" "Draft" "Initial draft state" true false in
  let approved := Api.WorkflowState.mk "state-2" "Approved" "" false true in
  let approve := Api.WorkflowTransition.mk "trans-1" "Approve" "" "state-1" "state-2" None in
  let definition := Api.WorkflowDefinition.mk "def-1" "Approval Workflow" "" "1.0.0"
                      [draft; approved] [approve] "" "" in
  InstanceDetailPage.getStateName (Some definition) "state-2" = "Approved"
  ∧ InstanceDetailPage.getTransitionName (Some definition) "trans-1" = "Approve"
  ∧ InstanceDetailPage.getStateName (Some definition) "state-9" = "Unknown State"
  ∧ InstanceDetailPage.getTransitionName (Some definition) "trans-9" = "System Transition".
Proof.
  cbn zeta.
  pose proof (detail_names_by_id
                (Api.WorkflowDefinition.mk "def-1" "Approval Workflow" "" "1.0.0"
                   [Api.WorkflowState.mk "state-1" "Draft" "Initial draft state" true false;
                    Api.WorkflowState.mk "state-2" "Approved" "" false true]
                   [Api.WorkflowTransition.mk "trans-1" "Approve" "" "state-1" "state-2"
                      None] "" "")
                (Api.WorkflowState.mk "state-2" "Approved" "" false true)
                (Api.WorkflowTransition.mk "trans-1" "Approve" "" "state-1" "state-2" None))
    as H.
  split_and!.
  - apply (H ""); [|by right; left|done].
    apply (bool_decide_unpack _). vm_compute. done.
  - apply (H ""); [|by left|done].
    apply (bool_decide_unpack _). vm_compute. done.
  - apply (H "state-9"). intros x Hx.
    apply elem_of_cons in Hx as [->|Hx]; [done|].
    apply elem_of_cons in Hx as [->|Hx]; [done|]. by apply elem_of_nil in Hx.
  - apply (H "trans-9"). intros x Hx.
    apply elem_of_cons in Hx as [->|Hx]; [done|]. by apply elem_of_nil in Hx.
Defined.

(** X2: on the instances list page, the state name of a row is the one the
    detail page shows for the first loaded definition with the row's
    definition id, and Unknown State when the definitions are not loaded or
    none has that id; the definition name is Unknown Definition in these two
    cases and is never blank. *)
Theorem list_names_by_id (definitions : list Api.WorkflowDefinition.t)
    (d : Api.WorkflowDefinition.t) (k : nat) (definitionId stateId : string) :
  InstancesPage.getStateName None definitionId stateId = "Unknown State"
  ∧ InstancesPage.getDefinitionName None definitionId = "Unknown Definition"
  ∧ InstancesPage.getDefinitionName (Some definitions) definitionId ≠ ""
  ∧ ((∀ x, x ∈ definitions → Api.WorkflowDefinition.id x ≠ definitionId) →
     InstancesPage.getStateName (Some definitions) definitionId stateId = "Unknown State"
     ∧ InstancesPage.getDefinitionName (Some definitions) definitionId
       = "Unknown Definition")
  ∧ (definitions !! k = Some d → Api.WorkflowDefinition.id d = definitionId →
     (∀ j x, definitions !! j = Some x → j < k →
             Api.WorkflowDefinition.id x ≠ definitionId) →
     InstancesPage.getStateName (Some definitions) definitionId stateId
     = InstanceDetailPage.getStateName (Some d) stateId
     ∧ InstancesPage.getDefinitionName (Some definitions) definitionId
       = or_else (Some (Api.WorkflowDefinition.name d)) "Unknown Definition").
Proof.
  split_and!; try done.
  - by apply or_else_nonempty.
  - intros Hnone.
    assert (list_find (λ x, Api.WorkflowDefinition.id x = definitionId) definitions = None)
      as Hfind.
    { apply list_find_None, Forall_forall. intros x Hx. by apply Hnone. }
    unfold InstancesPage.getStateName, InstancesPage.getDefinitionName.
    cbn. by rewrite Hfind.
  - intros Hk Hid Hfirst.
    assert (list_find (λ x, Api.WorkflowDefinition.id x = definitionId) definitions
            = Some (k, d)) as Hfind.
    { apply list_find_Some. split_and!; [done|done|]. intros j x Hj Hlt. by eapply Hfirst. }
    unfold InstancesPage.getStateName, InstancesPage.getDefinitionName.
    cbn. by rewrite Hfind.
Qed.

Lemma list_names_by_id_witness :
  let draft := Api.WorkflowState.mk "s1" "Draft" "" true false in
  let first := Api.WorkflowDefinition.mk "1" "Approval Workflow" "" "1.0.0" [draft] [] "" "" in
  let second := Api.WorkflowDefinition.mk "2" "Order Processing" "" "2.0.0" [] [] "" "" in
  InstancesPage.getStateName (Some [first; second]) "1" "s1" = "Draft"
  ∧ InstancesPage.getDefinitionName (Some [first; second]) "2" = "Order Processing"
  ∧ InstancesPage.getDefinitionName (Some [first; second]) "3" = "Unknown Definition".
Proof.
  cbn zeta.
  set (draft := Api.WorkflowState.mk "s1" "Draft" "" true false).
  set (first := Api.WorkflowDefinition.mk "1" "Approval Workflow" "" "1.0.0" [draft] [] "" "").
  set (second := Api.WorkflowDefinition.mk "2" "Order Processing" "" "2.0.0" [] [] "" "").
  split_and!.
  - change "Draft" with (InstanceDetailPage.getStateName (Some first) "s1").
    apply (list_names_by_id [first; second] first 0 "1" "s1"); [done|done|].
    intros j x _ Hj. lia.
  - change "Order Processing"
      with (or_else (Some (Api.WorkflowDefinition.name second)) "Unknown Definition").
    apply (list_names_by_id [first; second] second 1 "2" ""); [done|done|].
    intros j x Hj Hlt. destruct j as [|j]; [|lia]. by injection Hj as <-.
  - apply (list_names_by_id [first; second] first 0 "3" ""). intros x Hx.
    apply elem_of_cons in Hx as [->|Hx]; [done|].
    apply elem_of_cons in Hx as [->|Hx]; [done|]. by apply elem_of_nil in Hx.
Defined.

(** ** The Transition Workflow button and the two submit handlers *)

(** X3: the Transition Workflow button is shown exactly when the instance is
    active and at least one transition of the loaded definition leaves its
    current state; it is never shown for a completed or terminated instance,
    nor while the definition is missing. *)
Theorem canTransition_spec (definition : Api.WorkflowDefinition.t)
    (instance : Api.WorkflowInstance.t) :
  (InstanceDetailPage.canTransition (Some definition) (Some instance) = true
   ↔ Api.WorkflowInstance.status instance = Api.Status.active
     ∧ ∃ t, t ∈ Api.WorkflowDefinition.transitions definition
            ∧ Api.WorkflowTransition.from_state_id t
              = Api.WorkflowInstance.current_state_id instance)
  ∧ InstanceDetailPage.canTransition None (Some instance) = false
  ∧ InstanceDetailPage.canTransition (Some definition) None = false
  ∧ (Api.WorkflowInstance.status instance ≠ Api.Status.active →
     InstanceDetailPage.canTransition (Some definition) (Some instance) = false).
Proof.
  split_and!.
  - unfold InstanceDetailPage.canTransition.
    destruct (Api.WorkflowInstance.status instance);
      try (split; [done|intros [? _]; done]).
    rewrite bool_decide_eq_true.
    unfold InstanceDetailPage.getAvailableTransitions.
    set (l := filter _ _).
    assert (0 < length l ↔ ∃ t, t ∈ l) as ->.
    { destruct l as [|x l]; cbn.
      - split; [lia|]. intros [t Ht]. by apply elem_of_nil in Ht.
      - split; [|lia]. intros _. exists x. by left. }
    unfold l. split.
    + intros [t Ht]. apply list_elem_of_filter in Ht as [? ?]. split; [done|by exists t].
    + intros [_ (t & Hin & Hfrom)]. exists t. by apply list_elem_of_filter.
  - unfold InstanceDetailPage.canTransition. cbn.
    by destruct (Api.WorkflowInstance.status instance).
  - done.
  - intros Hst. unfold InstanceDetailPage.canTransition.
    by destruct (Api.WorkflowInstance.status instance).
Qed.

Lemma canTransition_spec_witness :
  let approve := Api.WorkflowTransition.mk "trans-1" "Approve" "" "state-1" "state-2" None in
  let definition := Api.WorkflowDefinition.mk "def-1" "Approval Workflow" "" "1.0.0"
                      [] [approve] "" "" in
  let completed := Api.WorkflowInstance.mk "inst-1" "def-1" "state-1" []
                     Api.Status.completed "" "" in
  InstanceDetailPage.canTransition (Some definition) (Some completed) = false.
Proof.
  cbn zeta.
  apply (canTransition_spec
           (Api.WorkflowDefinition.mk "def-1" "Approval Workflow" "" "1.0.0" []
              [Api.WorkflowTransition.mk "trans-1" "Approve" "" "state-1" "state-2" None]
              "" "")
           (Api.WorkflowInstance.mk "inst-1" "def-1" "state-1" []
              Api.Status.completed "" "")).
  discriminate.
Defined.

Section SubmissionFacts.

Variable JSON_parse : string → option json.

(** X4: submitting the transition form calls the API exactly when a transition
    is selected and the data text is empty or parses; then the request names
    the selected transition, and the snackbar reports success exactly when the
    API call resolved.  The same holds for the new-instance form with the
    selected workflow definition. *)
Theorem submit_requests
    (mutateTransition : Api.TransitionWorkflowInstanceRequest.t → bool)
    (mutateCreate : Api.CreateWorkflowInstanceRequest.t → bool)
    (v : InstanceDetailPage.TransitionFormData.t) (w : NewInstancePage.FormData.t) :
  let sent := InstanceDetailPage.onSubmit JSON_parse mutateTransition v in
  let sent' := NewInstancePage.onSubmit JSON_parse mutateCreate w in
  (is_Some (request_of sent)
   ↔ InstanceDetailPage.TransitionFormData.transition_id v ≠ ""
     ∧ (InstanceDetailPage.TransitionFormData.data v = ""
        ∨ is_Some (JSON_parse (InstanceDetailPage.TransitionFormData.data v))))
  ∧ (is_Some (request_of sent')
     ↔ NewInstancePage.FormData.workflow_definition_id w ≠ ""
       ∧ (NewInstancePage.FormData.data w = ""
          ∨ is_Some (JSON_parse (NewInstancePage.FormData.data w))))
  ∧ (∀ r, request_of sent = Some r →
       sent = Handled (Some r)
                (if mutateTransition r then "Workflow transitioned successfully"
                 else "Failed to transition workflow"))
  ∧ (∀ r, request_of sent' = Some r →
       sent' = Handled (Some r)
                 (if mutateCreate r then "Workflow instance created successfully"
                  else "Failed to create workflow instance"))
  ∧ (InstanceDetailPage.TransitionFormData.transition_id v = "" →
     ("transition_id", "Transition is required") ∈ errors_of sent)
  ∧ (NewInstancePage.FormData.workflow_definition_id w = "" →
     ("workflow_definition_id", "Workflow definition is required") ∈ errors_of sent').
Proof.
  destruct v as [tid text], w as [did text']. cbn.
  split_and!.
  - rewrite <- (schema_pair_nil JSON_parse "transition_id" "Transition is required").
    unfold InstanceDetailPage.onSubmit, InstanceDetailPage.transitionSchema. cbn.
    destruct (required _ _ tid ++ json_test JSON_parse "data" text) eqn:Hs.
    + apply schema_pair_nil in Hs as [_ Hp]. apply parsedData_is_Some in Hp as [p Hp].
      unfold InstanceDetailPage.handleTransitionSubmit. cbn. rewrite Hp.
      split; [done|]. intros _. destruct (mutateTransition _); by eexists.
    + cbn. split; [by intros [? [=]]|done].
  - rewrite <- (schema_pair_nil JSON_parse "workflow_definition_id"
                  "Workflow definition is required").
    unfold NewInstancePage.onSubmit, NewInstancePage.schema. cbn.
    destruct (required _ _ did ++ json_test JSON_parse "data" text') eqn:Hs.
    + apply schema_pair_nil in Hs as [_ Hp]. apply parsedData_is_Some in Hp as [p Hp].
      unfold NewInstancePage.handleFormSubmit. cbn. rewrite Hp.
      split; [done|]. intros _. destruct (mutateCreate _); by eexists.
    + cbn. split; [by intros [? [=]]|done].
  - intros r. unfold InstanceDetailPage.onSubmit.
    destruct (InstanceDetailPage.transitionSchema _ _); [|done].
    unfold InstanceDetailPage.handleTransitionSubmit. cbn.
    destruct (parsedData JSON_parse text) as [p|]; [|done].
    destruct (mutateTransition _) eqn:Hm; cbn; intros [= <-]; by rewrite Hm.
  - intros r. unfold NewInstancePage.onSubmit.
    destruct (NewInstancePage.schema _ _); [|done].
    unfold NewInstancePage.handleFormSubmit. cbn.
    destruct (parsedData JSON_parse text') as [p|]; [|done].
    destruct (mutateCreate _) eqn:Hm; cbn; intros [= <-]; by rewrite Hm.
  - intros ->. unfold InstanceDetailPage.onSubmit, InstanceDetailPage.transitionSchema.
    cbn. left.
  - intros ->. unfold NewInstancePage.onSubmit, NewInstancePage.schema.
    cbn. left.
Qed.

End SubmissionFacts.

Lemma submit_requests_witness :
  let parse := λ text : string,
    if String.eqb text "[1]" then Some (JArr [JNum 1]) else None in
  let untouched := InstanceDetailPage.TransitionFormData.mk "" "[1]" in
  let chosen := InstanceDetailPage.TransitionFormData.mk "trans-1" "" in
  request_of (InstanceDetailPage.onSubmit parse (λ _, false) untouched) = None
  ∧ InstanceDetailPage.onSubmit parse (λ _, false) chosen
    = Handled (Some (Api.TransitionWorkflowInstanceRequest.mk "trans-1" (Some (JObj []))))
        "Failed to transition workflow".
Proof.
  cbn zeta. split.
  - pose proof (submit_requests
                  (λ text : string, if String.eqb text "[1]" then Some (JArr [JNum 1]) else None)
                  (λ _, false) (λ _, false)
                  (InstanceDetailPage.TransitionFormData.mk "" "[1]")
                  (NewInstancePage.FormData.mk "" "")) as (Hiff & _).
    cbn zeta in Hiff.
    destruct (request_of _) as [r|] eqn:Hr; [|done].
    destruct Hiff as [Hiff _]. destruct Hiff as [Hne _]; [by eexists|]. done.
  - pose proof (submit_requests
                  (λ text : string, if String.eqb text "[1]" then Some (JArr [JNum 1]) else None)
                  (λ _, false) (λ _, false)
                  (InstanceDetailPage.TransitionFormData.mk "trans-1" "")
                  (NewInstancePage.FormData.mk "" "")) as (_ & _ & Hsent & _).
    apply (Hsent (Api.TransitionWorkflowInstanceRequest.mk "trans-1" (Some (JObj [])))).
    reflexivity.
Defined.

(** ** More on the state diagram *)

Section DiagramOrder.

Import StateDiagram.

Lemma or_else_falsy (s : option string) (fb : string) :
  truthy s = false → or_else s fb = fb.
Proof.
  destruct s as [v|]; cbn; [|done]. by destruct (String.eqb v "").
Qed.

Lemma or_else_truthy (v fb : string) : v ≠ "" → or_else (Some v) fb = v.
Proof. intros ne. cbn. by destruct (String.eqb_spec v ""). Qed.

Lemma index_names_NoDup {A} (prefix : string) (l : list A) :
  NoDup (imap (λ i _, (prefix ++ pretty i)%string) l).
Proof.
  apply NoDup_alt. intros i j x. rewrite !list_lookup_imap.
  destruct (l !! i), (l !! j); cbn; try done.
  intros [= <-] [= Heq]. apply (inj (String.append prefix)) in Heq.
  by apply (inj pretty) in Heq.
Qed.

Lemma createEdges_fields_at (g : nat → nat) (ts : list Transition.t) :
  (λ e, (Edge.source e, Edge.target e, Edge.label e))
    <$> omap id (imap (λ i, createEdge (g i)) ts)
  = (λ t, (default "" (Transition.from_state_id t),
           default "" (Transition.to_state_id t), Transition.name t))
      <$> filter (λ t, drawableb t = true) ts.
Proof.
  revert g. induction ts as [|t ts IH]; intros g; [done|].
  destruct (drawableb t) eqn:Hd.
  - rewrite filter_cons_True by done. cbn.
    rewrite createEdge_drawableb, Hd. cbn. f_equal. apply (IH (g ∘ S)).
  - rewrite filter_cons_False by (rewrite Hd; done). cbn.
    rewrite createEdge_drawableb, Hd. apply (IH (g ∘ S)).
Qed.

Lemma createEdges_ids_at (g : nat → nat) (ts : list Transition.t) :
  (∀ t, t ∈ ts → truthy (Transition.id t) = false) →
  Edge.id <$> omap id (imap (λ i, createEdge (g i)) ts)
  `sublist_of` imap (λ i _, ("e" ++ pretty (g i))%string) ts.
Proof.
  revert g. induction ts as [|t ts IH]; intros g Hids; [done|].
  cbn. rewrite createEdge_drawableb.
  assert (∀ x, x ∈ ts → truthy (Transition.id x) = false) as Hrest.
  { intros x Hx. apply Hids. by right. }
  destruct (drawableb t); cbn.
  - rewrite or_else_falsy by (apply Hids; left).
    apply sublist_skip, (IH (g ∘ S) Hrest).
  - apply sublist_cons, (IH (g ∘ S) Hrest).
Qed.

Lemma createEdges_ends (transitions : list Transition.t) (e : Edge.t) :
  e ∈ createEdges transitions →
  Edge.source e ≠ "" ∧ Edge.target e ≠ "" ∧ Edge.source e ≠ Edge.target e
  ∧ ∃ t, t ∈ transitions
         ∧ Transition.from_state_id t = Some (Edge.source e)
         ∧ Transition.to_state_id t = Some (Edge.target e)
         ∧ Transition.name t = Edge.label e.
Proof.
  intros (i & t & Hi & (f & g & Hf & Hg & Hf0 & Hg0 & Hfg) & ->)%createEdges_elem.
  unfold edge_of. cbn. rewrite Hf, Hg. cbn. split_and!; try done.
  exists t. split_and!; try done. by eapply list_elem_of_lookup_2.
Qed.

(** X5: an edge of the diagram is never a self-loop and never has an empty
    end: its source and target are two different, non-empty state ids, those
    of a transition of the input. *)
Theorem edges_are_proper (transitions : list Transition.t) (e : Edge.t) :
  e ∈ createEdges transitions →
  Edge.source e ≠ "" ∧ Edge.target e ≠ "" ∧ Edge.source e ≠ Edge.target e
  ∧ ∃ t, t ∈ transitions
         ∧ Transition.from_state_id t = Some (Edge.source e)
         ∧ Transition.to_state_id t = Some (Edge.target e)
         ∧ Transition.name t = Edge.label e.
Proof. apply createEdges_ends. Qed.

Lemma edges_are_proper_witness :
  let go := Transition.mk (Some "t1") "Approve" (Some "s1") (Some "s2") in
  let self := Transition.mk None "Stay" (Some "s1") (Some "s1") in
  let e := Edge.mk "t1" "s1" "s2" "Approve" in
  e ∈ createEdges [self; go] ∧ Edge.source e ≠ Edge.target e.
Proof.
  cbn zeta.
  assert (Edge.mk "t1" "s1" "s2" "Approve"
          ∈ createEdges [Transition.mk None "Stay" (Some "s1") (Some "s1");
                         Transition.mk (Some "t1") "Approve" (Some "s1") (Some "s2")])
    as Hin by (vm_compute; left).
  split; [exact Hin|].
  apply (edges_are_proper _ _ Hin).
Defined.

(** X6: the edges come in the order of the transitions they are drawn for:
    their sources, targets and labels are those of the transitions with two
    different non-empty ends, in the order of the input, nothing added and
    nothing repeated. *)
Theorem edges_in_order (transitions : list Transition.t) :
  (λ e, (Edge.source e, Edge.target e, Edge.label e)) <$> createEdges transitions
  = (λ t, (default "" (Transition.from_state_id t),
           default "" (Transition.to_state_id t), Transition.name t))
      <$> filter (λ t, drawableb t = true) transitions.
Proof. apply (createEdges_fields_at id). Qed.

(** X7: when no transition carries an id of its own (a definition that was
    never saved), the edges get the ids e0, e1, ... of their positions in the
    input, and no two edges share an id. *)
Theorem edge_ids_distinct (transitions : list Transition.t) :
  (∀ t, t ∈ transitions → truthy (Transition.id t) = false) →
  NoDup (Edge.id <$> createEdges transitions)
  ∧ ∀ i t, transitions !! i = Some t → drawable t →
           createEdge i t = Some (edge_of i t) ∧ Edge.id (edge_of i t) = ("e" ++ pretty i)%string.
Proof.
  intros Hids. split.
  - eapply sublist_NoDup; [|apply (createEdges_ids_at id _ Hids)].
    apply (index_names_NoDup "e").
  - intros i t Hi Hd. apply drawableb_spec in Hd.
    rewrite createEdge_drawableb, Hd. split; [done|].
    unfold edge_of. cbn. apply or_else_falsy, Hids. by eapply list_elem_of_lookup_2.
Qed.

Lemma edge_ids_distinct_witness :
  let a := Transition.mk None "A" (Some "0") (Some "1") in
  let b := Transition.mk (Some "") "B" (Some "1") (Some "1") in
  let c := Transition.mk None "C" (Some "1") (Some "0") in
  NoDup (Edge.id <$> createEdges [a; b; c])
  ∧ (Edge.id <$> createEdges [a; b; c]) = ["e0"; "e2"].
Proof.
  cbn zeta. split; [|reflexivity].
  apply (edge_ids_distinct
           [Transition.mk None "A" (Some "0") (Some "1");
            Transition.mk (Some "") "B" (Some "1") (Some "1");
            Transition.mk None "C" (Some "1") (Some "0")]).
  intros t Ht.
  apply elem_of_cons in Ht as [->|Ht]; [done|].
  apply elem_of_cons in Ht as [->|Ht]; [done|].
  apply elem_of_cons in Ht as [->|Ht]; [done|].
  by apply elem_of_nil in Ht.
Defined.

Lemma createNodes_ids (states : list State.t) :
  Node.id <$> createNodes states = imap (λ i s, or_else (State.id s) (pretty i)) states.
Proof.
  unfold createNodes. rewrite fmap_imap. apply imap_ext.
  intros i s _. apply createNode_id.
Qed.

(** X8: the node ids are distinct in the two regular cases: when no state
    has an id (the ids are then the decimal positions 0, 1, ...), and when
    every state has a non-empty id and these ids are distinct (the node ids
    are then the state ids). *)
Theorem node_ids_distinct (states : list State.t) :
  ((∀ s, s ∈ states → truthy (State.id s) = false) →
   Node.id <$> createNodes states = imap (λ i _, pretty i) states
   ∧ NoDup (Node.id <$> createNodes states))
  ∧ ((∀ s, s ∈ states → truthy (State.id s) = true) →
     Some <$> (Node.id <$> createNodes states) = State.id <$> states
     ∧ (NoDup (State.id <$> states) → NoDup (Node.id <$> createNodes states))).
Proof.
  split.
  - intros Hids.
    assert (Node.id <$> createNodes states = imap (λ i _, pretty i) states) as ->.
    { rewrite createNodes_ids. apply imap_ext. intros i s Hs.
      apply or_else_falsy, Hids. by eapply list_elem_of_lookup_2. }
    split; [done|]. apply (index_names_NoDup "").
  - intros Hids.
    assert (Some <$> (Node.id <$> createNodes states) = State.id <$> states) as Heq.
    { rewrite createNodes_ids. apply list_eq. intros i.
      rewrite !list_lookup_fmap, list_lookup_imap.
      destruct (states !! i) as [s|] eqn:Hs; [|done]. cbn.
      pose proof (Hids s (list_elem_of_lookup_2 _ _ _ Hs)) as Ht.
      destruct (State.id s) as [v|]; [|done]. cbn in *.
      by destruct (String.eqb v ""). }
    split; [done|]. rewrite <- Heq.
    intros Hnd. by apply (NoDup_fmap_1 Some).
Qed.

Lemma node_ids_distinct_witness :
  let a := State.mk None "Initial" (Some true) (Some false) in
  let b := State.mk (Some "") "State 2" (Some false) (Some false) in
  (Node.id <$> createNodes [a; b]) = ["0"; "1"] ∧ NoDup (Node.id <$> createNodes [a; b]).
Proof.
  cbn zeta.
  apply (node_ids_distinct
           [State.mk None "Initial" (Some true) (Some false);
            State.mk (Some "") "State 2" (Some false) (Some false)]).
  intros s Hs.
  apply elem_of_cons in Hs as [->|Hs]; [done|].
  apply elem_of_cons in Hs as [->|Hs]; [done|].
  by apply elem_of_nil in Hs.
Defined.

End DiagramOrder.

(** ** The diagram of the detail page *)

Section PageDiagrams.

Import StateDiagram DiagramProps.

Lemma api_node_ids (states : list Api.WorkflowState.t) :
  (∀ s, s ∈ states → Api.WorkflowState.id s ≠ "") →
  Node.id <$> createNodes (ofApiState <$> states) = Api.WorkflowState.id <$> states.
Proof.
  intros Hids. rewrite createNodes_ids, imap_fmap.
  apply list_eq. intros i. rewrite list_lookup_imap, list_lookup_fmap.
  destruct (states !! i) as [s|] eqn:Hs; [|done].
  change (Some (or_else (Some (Api.WorkflowState.id s)) (pretty i))
          = Some (Api.WorkflowState.id s)).
  rewrite or_else_truthy; [done|]. apply Hids. by eapply list_elem_of_lookup_2.
Qed.

(** X10: on the definition detail page, when every state has a non-empty id,
    the nodes of the diagram carry the state ids, in order; and every
    transition between two different states of the definition is drawn as an
    edge from the node of its from-state to the node of its to-state, under
    the transition's own id when it has one. *)
Theorem detail_diagram_complete (definition : Api.WorkflowDefinition.t)
    (t : Api.WorkflowTransition.t) :
  let ids := Api.WorkflowState.id <$> Api.WorkflowDefinition.states definition in
  (∀ s, s ∈ Api.WorkflowDefinition.states definition → Api.WorkflowState.id s ≠ "") →
  Node.id <$> (detailDiagram definition).1 = ids
  ∧ (t ∈ Api.WorkflowDefinition.transitions definition →
     Api.WorkflowTransition.from_state_id t ∈ ids →
     Api.WorkflowTransition.to_state_id t ∈ ids →
     Api.WorkflowTransition.from_state_id t ≠ Api.WorkflowTransition.to_state_id t →
     ∃ e, e ∈ (detailDiagram definition).2
          ∧ Edge.source e = Api.WorkflowTransition.from_state_id t
          ∧ Edge.target e = Api.WorkflowTransition.to_state_id t
          ∧ Edge.label e = Api.WorkflowTransition.name t
          ∧ (Api.WorkflowTransition.id t ≠ "" → Edge.id e = Api.WorkflowTransition.id t)
          ∧ Edge.source e ∈ Node.id <$> (detailDiagram definition).1
          ∧ Edge.target e ∈ Node.id <$> (detailDiagram definition).1).
Proof.
  cbn zeta. intros Hids. unfold detailDiagram. cbn [fst snd].
  rewrite (api_node_ids _ Hids). split; [done|].
  intros Hin Hfrom Hto Hne.
  assert (Api.WorkflowTransition.from_state_id t ≠ "") as Hf0.
  { apply list_elem_of_fmap in Hfrom as (s & -> & Hs). by apply Hids. }
  assert (Api.WorkflowTransition.to_state_id t ≠ "") as Hg0.
  { apply list_elem_of_fmap in Hto as (s & -> & Hs). by apply Hids. }
  apply list_elem_of_lookup in Hin as [i Hi].
  exists (edge_of i (ofApiTransition t)). split_and!; try done.
  - apply createEdges_elem. exists i, (ofApiTransition t). split_and!; [|by eexists _, _|done].
    by rewrite list_lookup_fmap, Hi.
  - intros Hid. unfold edge_of. cbn [Edge.id ofApiTransition Transition.id].
    by apply or_else_truthy.
Qed.

Lemma detail_diagram_complete_witness :
  let draft := Api.WorkflowState.mk "state-1" "Draft" "" true false in
  let approved := Api.WorkflowState.mk "state-2" "Approved" "" false true in
  let approve := Api.WorkflowTransition.mk "trans-1" "Approve" "" "state-1" "state-2" None in
  let definition := Api.WorkflowDefinition.mk "def-1" "Approval Workflow" "" "1.0.0"
                      [draft; approved] [approve] "" "" in
  Node.id <$> (detailDiagram definition).1 = ["state-1"; "state-2"]
  ∧ (detailDiagram definition).2 = [Edge.mk "trans-1" "state-1" "state-2" "Approve"].
Proof.
  cbn zeta. split; [|reflexivity].
  apply (detail_diagram_complete
           (Api.WorkflowDefinition.mk "def-1" "Approval Workflow" "" "1.0.0"
              [Api.WorkflowState.mk "state-1" "Draft" "" true false;
               Api.WorkflowState.mk "state-2" "Approved" "" false true]
              [Api.WorkflowTransition.mk "trans-1" "Approve" "" "state-1" "state-2" None]
              "" "")
           (Api.WorkflowTransition.mk "trans-1" "Approve" "" "state-1" "state-2" None)).
  intros s Hs.
  apply elem_of_cons in Hs as [->|Hs]; [done|].
  apply elem_of_cons in Hs as [->|Hs]; [done|].
  by apply elem_of_nil in Hs.
Defined.

End PageDiagrams.

(** ** The controls of the definition form *)

Section FormControls.

Import WorkflowDefinitionForm.

#[local] Arguments initial_count : simpl never.

Lemma onInitialChange_off (index : nat) (states : list StateData.t) :
  onInitialChange index false states = alter (set_is_initial false) index states.
Proof.
  apply list_eq. intros j. unfold onInitialChange.
  rewrite list_lookup_imap, list_lookup_alter.
  destruct (decide (index = j)) as [->|ne].
  - destruct (states !! j); [|done]. cbn. by rewrite bool_decide_eq_true_2.
  - destruct (states !! j); [|done]. cbn. by rewrite bool_decide_eq_false_2.
Qed.

Lemma initial_count_cons (s : StateData.t) (l : list StateData.t) :
  initial_count (s :: l) = (if StateData.is_initial s then 1 else 0) + initial_count l.
Proof.
  unfold initial_count. destruct (StateData.is_initial s) eqn:Hs.
  - by rewrite filter_cons_True.
  - rewrite filter_cons_False; [done|]. by rewrite Hs.
Qed.

Lemma initial_count_alter_le (f : StateData.t → StateData.t) (index : nat)
    (states : list StateData.t) :
  (∀ s, StateData.is_initial (f s) = true → StateData.is_initial s = true) →
  (initial_count (alter f index states) ≤ initial_count states)%nat.
Proof.
  intros Hf. revert index. induction states as [|s l IH]; intros [|n]; cbn; try done.
  - rewrite !initial_count_cons. specialize (Hf s).
    destruct (StateData.is_initial (f s)), (StateData.is_initial s); lia.
  - rewrite !initial_count_cons. specialize (IH n). lia.
Qed.

Lemma initial_count_delete_le (index : nat) (states : list StateData.t) :
  (initial_count (delete index states) ≤ initial_count states)%nat.
Proof.
  revert index. induction states as [|s l IH]; intros [|n]; cbn; try done.
  - rewrite initial_count_cons. lia.
  - rewrite !initial_count_cons. apply Nat.add_le_mono_l, IH.
Qed.

Lemma initial_count_add (states : list StateData.t) :
  initial_count (handleAddState states) = initial_count states.
Proof.
  unfold handleAddState, initial_count. rewrite filter_app, length_app.
  rewrite filter_cons_False by done. cbn. lia.
Qed.

Lemma form_states_unsaved (states : list StateData.t) :
  form_states states → Forall unsaved states.
Proof.
  induction 1 as [|states _ IH|index states _ IH _|index checked states _ IH _
                 |index checked states _ IH _|index value states _ IH _
                 |index value states _ IH _].
  - by repeat constructor.
  - apply Forall_app. split; [done|]. by repeat constructor.
  - by apply Forall_delete.
  - apply Forall_lookup. intros j s. unfold onInitialChange.
    rewrite list_lookup_imap. destruct (states !! j) as [s'|] eqn:Hj; [|done].
    rewrite Forall_lookup in IH. specialize (IH j s' Hj). cbn.
    intros [= <-]. by destruct (bool_decide _), checked.
  - by apply Forall_alter.
  - by apply Forall_alter.
  - by apply Forall_alter.
Qed.

Lemma unsaved_state_keys (states : list StateData.t) :
  (∀ s, s ∈ states → truthy (StateData.id s) = false) →
  state_keys states = imap (λ i _, pretty i) states.
Proof.
  intros Hids. unfold state_keys. apply imap_ext. intros i s Hs.
  apply or_else_falsy, Hids. by eapply list_elem_of_lookup_2.
Qed.

(** X11: in a form that starts from the default state and is changed only by
    its own controls (Add State, the delete button, the two switches and the
    two text fields of a state), at most one state is initial at any time, no
    state has an id, and the values of the From State and To State selects are
    the decimal positions 0, 1, ... of the states, all different. *)
Theorem form_states_invariant (states : list StateData.t) :
  form_states states →
  (initial_count states ≤ 1)%nat
  ∧ Forall unsaved states
  ∧ state_keys states = imap (λ i _, pretty i) states
  ∧ NoDup (state_keys states).
Proof.
  intros Hform.
  assert (initial_count states ≤ 1)%nat as Hcount.
  { induction Hform as [|states _ IH|index states _ IH _|index checked states _ IH Hlt
                       |index checked states _ IH _|index value states _ IH _
                       |index value states _ IH _].
    - done.
    - by rewrite initial_count_add.
    - etrans; [apply initial_count_delete_le|done].
    - destruct checked.
      + by rewrite onInitialChange_one.
      + rewrite onInitialChange_off.
        etrans; [apply initial_count_alter_le|done]. done.
    - etrans; [apply initial_count_alter_le|done]. done.
    - etrans; [apply initial_count_alter_le|done]. done.
    - etrans; [apply initial_count_alter_le|done]. done. }
  pose proof (form_states_unsaved states Hform) as Hunsaved.
  assert (state_keys states = imap (λ i _, pretty i) states) as Hkeys.
  { apply unsaved_state_keys. intros s Hs.
    rewrite Forall_forall in Hunsaved. unfold unsaved in Hunsaved.
    by rewrite (Hunsaved s Hs). }
  split_and!; try done.
  rewrite Hkeys. apply (index_names_NoDup "").
Qed.

Lemma form_states_invariant_witness :
  let states := onInitialChange 1 true (handleAddState (handleAddState defaultStates)) in
  (initial_count states ≤ 1)%nat ∧ state_keys states = ["0"; "1"; "2"].
Proof.
  cbn zeta.
  pose proof (form_states_invariant
                (onInitialChange 1 true (handleAddState (handleAddState defaultStates))))
    as H.
  split; [|reflexivity].
  apply H. apply form_initial; [|cbn; lia].
  apply form_add, form_add, form_default.
Defined.

(** X12: the Initial State switch changes nothing but the initial flags: the
    number of states, their ids, names, descriptions and final flags, and so
    the values of the selects, stay as they were; the switched state takes
    the new value; and switching a state off leaves every other state
    untouched. *)
Theorem initial_switch_frame (index : nat) (checked : bool) (states : list StateData.t) :
  let switched := onInitialChange index checked states in
  length switched = length states
  ∧ set_is_initial false <$> switched = set_is_initial false <$> states
  ∧ state_keys switched = state_keys states
  ∧ (StateData.is_initial <$> (switched !! index)) = (λ _, checked) <$> (states !! index)
  ∧ (∀ j, j ≠ index →
          onInitialChange index false states !! j = states !! j
          ∧ (StateData.is_initial <$> (onInitialChange index true states !! j))
            = (λ _, false) <$> (states !! j)).
Proof.
  cbn zeta. unfold onInitialChange. split_and!.
  - apply length_imap.
  - apply list_eq. intros j. rewrite !list_lookup_fmap, list_lookup_imap.
    destruct (states !! j) as [s|]; [|done]. cbn.
    by destruct (bool_decide (j = index)), checked.
  - unfold state_keys. apply list_eq. intros j. rewrite !list_lookup_imap.
    destruct (states !! j) as [s|]; [|done]. cbn.
    by destruct (bool_decide (j = index)), checked.
  - rewrite list_lookup_imap. destruct (states !! index) as [s|]; [|done]. cbn.
    by rewrite bool_decide_eq_true_2.
  - intros j ne. rewrite !list_lookup_imap.
    destruct (states !! j) as [s|]; [|done]. cbn.
    by rewrite !bool_decide_eq_false_2.
Qed.

Lemma initial_switch_frame_witness :
  let a := StateData.mk None "Initial" "Starting state" true false in
  let b := StateData.mk None "State 2" "" false true in
  onInitialChange 1 false [a; b] !! 0 = Some a
  ∧ (StateData.is_initial <$> (onInitialChange 1 true [a; b] !! 0)) = Some false.
Proof.
  cbn zeta.
  pose proof (initial_switch_frame 1 false
                [StateData.mk None "Initial" "Starting state" true false;
                 StateData.mk None "State 2" "" false true])
    as (_ & _ & _ & _ & H).
  apply (H 0). lia.
Defined.

(** X13: Add Transition does nothing while the form has fewer than two
    states; otherwise it appends one transition, without id, from the first
    state to the second, named by the select values of these two states; the
    new transition passes the schema, so the button never makes an accepted
    list of transitions rejected. *)
Theorem add_transition_spec (states : list StateData.t)
    (transitions : list TransitionData.t) :
  (length states < 2 → handleAddTransition states transitions = transitions)
  ∧ ((2 ≤ length states)%nat →
     ∃ t, handleAddTransition states transitions = transitions ++ [t]
          ∧ TransitionData.id t = None
          ∧ state_keys states !! 0 = Some (TransitionData.from_state_id t)
          ∧ state_keys states !! 1 = Some (TransitionData.to_state_id t)
          ∧ transition_ok t
          ∧ (Forall transition_ok transitions →
             Forall transition_ok (handleAddTransition states transitions))).
Proof.
  split.
  - intros Hlt. destruct states as [|s0 [|s1 l]]; cbn in *; try done. lia.
  - intros Hge. destruct states as [|s0 [|s1 l]]; cbn in Hge; try lia.
    unfold handleAddTransition. eexists. split; [done|].
    assert (transition_ok
              (TransitionData.mk None ("Transition " ++ pretty (length transitions + 1))%string
                 "" (or_else (StateData.id s0) "0") (or_else (StateData.id s1) "1")))
      as Hok.
    { split_and!; cbn; [done| |]; by apply or_else_nonempty. }
    split_and!; try done.
    intros Hall. apply Forall_app. split; [done|]. by constructor.
Qed.

Lemma add_transition_spec_witness :
  let states := handleAddState defaultStates in
  handleAddTransition defaultStates [] = []
  ∧ ∃ t, handleAddTransition states [] = [t]
         ∧ TransitionData.from_state_id t = "0" ∧ TransitionData.to_state_id t = "1".
Proof.
  cbn zeta.
  pose proof (add_transition_spec defaultStates []) as [Hfew _].
  pose proof (add_transition_spec (handleAddState defaultStates) []) as [_ Hmany].
  split; [apply Hfew; cbn; lia|].
  destruct Hmany as (t & Hadd & _ & Hfrom & Hto & _); [cbn; lia|].
  exists t. split; [exact Hadd|].
  cbn in Hfrom, Hto. injection Hfrom as <-. injection Hto as <-. done.
Defined.

(** X14: when no state has an id, deleting a state never removes the select
    value of the deleted state but always the last one: the remaining states
    are renumbered, every state after the deleted one moving down by one, so a
    transition that named a later state by its position now names the state
    after it, and one that named the last position names no state. *)
Theorem remove_state_renumbers (index : nat) (states : list StateData.t) :
  (∀ s, s ∈ states → truthy (StateData.id s) = false) →
  index < length states →
  state_keys (removeState index states) = take (length states - 1) (state_keys states)
  ∧ (pretty (length states - 1) ∉ state_keys (removeState index states))
  ∧ (∀ k, k < index → removeState index states !! k = states !! k)
  ∧ (∀ k, (index ≤ k)%nat → removeState index states !! k = states !! S k).
Proof.
  intros Hids Hlt. unfold removeState.
  assert (∀ s, s ∈ delete index states → truthy (StateData.id s) = false) as Hids'.
  { apply Forall_forall, Forall_delete, Forall_forall, Hids. }
  assert (length (delete index states) = length states - 1) as Hlen.
  { apply length_delete. by apply lookup_lt_is_Some_2. }
  assert (state_keys (delete index states)
          = take (length states - 1) (state_keys states)) as Hkeys.
  { rewrite (unsaved_state_keys _ Hids), (unsaved_state_keys _ Hids').
    apply list_eq. intros k. rewrite list_lookup_imap.
    destruct (decide (k < length states - 1)) as [Hk|Hk].
    - rewrite lookup_take_lt by done. rewrite list_lookup_imap.
      destruct (lookup_lt_is_Some_2 (delete index states) k) as [x ->]; [lia|].
      destruct (lookup_lt_is_Some_2 states k) as [y ->]; [lia|]. done.
    - rewrite lookup_take_ge by lia.
      rewrite (lookup_ge_None_2 (delete index states) k) by lia. done. }
  split_and!.
  - done.
  - rewrite (unsaved_state_keys _ Hids'). intros Hin.
    apply elem_of_lookup_imap in Hin as (k & x & Heq & Hk).
    apply (inj pretty) in Heq. subst k.
    apply lookup_lt_Some in Hk. lia.
  - intros k Hk. by apply list_lookup_delete_lt.
  - intros k Hk. by apply list_lookup_delete_ge.
Qed.

Lemma remove_state_renumbers_witness :
  let a := StateData.mk None "Draft" "" true false in
  let b := StateData.mk None "Review" "" false false in
  let c := StateData.mk None "Done" "" false true in
  state_keys (removeState 0 [a; b; c]) = ["0"; "1"]
  ∧ removeState 0 [a; b; c] !! 1 = Some c.
Proof.
  cbn zeta.
  pose proof (remove_state_renumbers 0
                [StateData.mk None "Draft" "" true false;
                 StateData.mk None "Review" "" false false;
                 StateData.mk None "Done" "" false true]) as H.
  destruct H as (Hkeys & _ & _ & Hshift).
  - intros s Hs.
    apply elem_of_cons in Hs as [->|Hs]; [done|].
    apply elem_of_cons in Hs as [->|Hs]; [done|].
    apply elem_of_cons in Hs as [->|Hs]; [done|].
    by apply elem_of_nil in Hs.
  - cbn. lia.
  - split; [exact Hkeys|]. apply (Hshift 1). lia.
Defined.

End FormControls.

(** ** Deleting a definition from the list page *)

Section DeleteDialog.

Import DefinitionsPage.

(** X15: confirming the delete dialog asks the API to delete at most one
    definition, the one whose delete button opened the dialog, and only if
    that id is not empty; it refetches the list exactly when the deletion
    resolved; and whatever happened, the dialog is closed and the selected id
    forgotten afterwards, so a second confirmation, or a confirmation after
    Cancel, deletes nothing. *)
Theorem delete_confirm_spec (mutateAsync : string → bool) (st : PageState.t) (id : string) :
  let after := (handleDeleteConfirm mutateAsync st).1 in
  let effects := (handleDeleteConfirm mutateAsync st).2 in
  PageState.deleteDialogOpen after = false
  ∧ PageState.definitionToDelete after = None
  ∧ Effects.deleted effects
    = (if truthy (PageState.definitionToDelete st)
       then [default "" (PageState.definitionToDelete st)] else [])
  ∧ (Effects.refetched effects = true
     ↔ ∃ d, Effects.deleted effects = [d] ∧ mutateAsync d = true)
  ∧ (Effects.deleted effects = [] → PageState.snackbar after = PageState.snackbar st)
  ∧ Effects.deleted (handleDeleteConfirm mutateAsync after).2 = []
  ∧ Effects.deleted (handleDeleteConfirm mutateAsync (handleDeleteCancel st)).2 = []
  ∧ (id ≠ "" →
     Effects.deleted (handleDeleteConfirm mutateAsync (handleDeleteClick id st)).2 = [id]
     ∧ Snackbar.severity
         (PageState.snackbar (handleDeleteConfirm mutateAsync (handleDeleteClick id st)).1)
       = (if mutateAsync id then success else error)).
Proof.
  cbn zeta. unfold handleDeleteConfirm.
  destruct st as [dialog [d|] snack]; cbn.
  - destruct (String.eqb_spec d "") as [->|ne]; cbn.
    + split_and!; try done.
      * split; [done|]. by intros (? & ? & _).
      * intros Hid. destruct (String.eqb_spec id ""); [done|].
        by destruct (mutateAsync id).
    + destruct (mutateAsync d) eqn:Hm; cbn; split_and!; try done.
      * split; [|done]. intros _. by exists d.
      * intros Hid. destruct (String.eqb_spec id ""); [done|].
        by destruct (mutateAsync id).
      * split; [done|]. intros (x & [= <-] & Hx). congruence.
      * intros Hid. destruct (String.eqb_spec id ""); [done|].
        by destruct (mutateAsync id).
  - split_and!; try done.
    + split; [done|]. by intros (? & ? & _).
    + intros Hid. destruct (String.eqb_spec id ""); [done|].
      by destruct (mutateAsync id).
Qed.

Lemma delete_confirm_spec_witness :
  let opened := handleDeleteClick "1" initialState in
  Effects.deleted (handleDeleteConfirm (λ _, true) opened).2 = ["1"]
  ∧ Snackbar.severity (PageState.snackbar (handleDeleteConfirm (λ _, true) opened).1)
    = success.
Proof.
  cbn zeta.
  apply (delete_confirm_spec (λ _, true) initialState "1").
  discriminate.
Defined.

End DeleteDialog.

(** ** Creating a definition *)

(** X16: the state-id remapping of the new-definition page changes nothing:
    whatever the states and whatever ids the transitions name, the
    transitions are sent as the form holds them, and the body of the create
    request is the form data itself, whether the API accepts it or not. *)
Theorem new_definition_request (mutateAsync : WorkflowDefinitionForm.WorkflowDefinitionFormData.t → bool)
    (data : WorkflowDefinitionForm.WorkflowDefinitionFormData.t) (state_id : string) :
  NewDefinitionPage.remap
    (NewDefinitionPage.stateIdMap
       (WorkflowDefinitionForm.WorkflowDefinitionFormData.states data)) state_id
  = state_id
  ∧ NewDefinitionPage.updatedTransitions data
    = WorkflowDefinitionForm.WorkflowDefinitionFormData.transitions data
  ∧ request_of (NewDefinitionPage.handleSubmit mutateAsync data) = Some data.
Proof.
  split_and!.
  - apply remap_id.
  - apply updatedTransitions_id.
  - unfold NewDefinitionPage.handleSubmit. rewrite updatedTransitions_id.
    destruct data. cbn. by destruct (mutateAsync _).
Qed.

(** ** The history table *)

(** X17: in a row of the history table no cell is blank; the From State cell
    reads Initial for an entry without origin state (a null or empty id) and
    the Transition cell reads Initialization for an entry without transition
    id; an entry that has the ids shows the names the page looks up for
    them. *)
Theorem history_row_spec (definition : option Api.WorkflowDefinition.t)
    (entry : Api.WorkflowHistoryEntry.t) :
  let row := InstanceDetailPage.historyRow definition entry in
  row.1.1 ≠ "" ∧ row.1.2 ≠ "" ∧ row.2 ≠ ""
  ∧ row.1.2
    = InstanceDetailPage.getStateName definition (Api.WorkflowHistoryEntry.to_state_id entry)
  ∧ (truthy (Api.WorkflowHistoryEntry.from_state_id entry) = false → row.1.1 = "Initial")
  ∧ (truthy (Api.WorkflowHistoryEntry.transition_id entry) = false →
     row.2 = "Initialization")
  ∧ (∀ s, Api.WorkflowHistoryEntry.from_state_id entry = Some s → s ≠ "" →
          row.1.1 = InstanceDetailPage.getStateName definition s)
  ∧ (∀ t, Api.WorkflowHistoryEntry.transition_id entry = Some t → t ≠ "" →
          row.2 = InstanceDetailPage.getTransitionName definition t).
Proof.
  cbn zeta. unfold InstanceDetailPage.historyRow.
  destruct entry as [? ? from to tid ? ?]. cbn.
  assert (∀ s, InstanceDetailPage.getStateName definition s ≠ "") as Hs.
  { intros s. by apply or_else_nonempty. }
  assert (∀ t, InstanceDetailPage.getTransitionName definition t ≠ "") as Ht.
  { intros t. by apply or_else_nonempty. }
  split_and!.
  - destruct from as [s|]; [|done]. destruct (String.eqb s ""); cbn; [done|apply Hs].
  - apply Hs.
  - destruct tid as [t|]; [|done]. destruct (String.eqb t ""); cbn; [done|apply Ht].
  - done.
  - destruct from as [s|]; [|done]. cbn. by destruct (String.eqb s "").
  - destruct tid as [t|]; [|done]. cbn. by destruct (String.eqb t "").
  - intros s -> ne. by destruct (String.eqb_spec s "").
  - intros t -> ne. by destruct (String.eqb_spec t "").
Qed.

Lemma history_row_spec_witness :
  let created := Api.WorkflowHistoryEntry.mk "hist-1" "inst-1" None "state-1" None
                   "2025-01-01T00:00:00Z" [("action", JStr "create")] in
  let row := InstanceDetailPage.historyRow None created in
  row.1.1 = "Initial" ∧ row.2 = "Initialization".
Proof.
  cbn zeta.
  pose proof (history_row_spec None
                (Api.WorkflowHistoryEntry.mk "hist-1" "inst-1" None "state-1" None
                   "2025-01-01T00:00:00Z" [("action", JStr "create")]))
    as (_ & _ & _ & _ & Hfrom & Htid & _).
  split; [apply Hfrom|apply Htid]; reflexivity.
Defined.
